(** * OpenAQ ETL: a shallow embedding of [scripts/etl/openaq_etl.py]

    The script fetches PM2.5 and NO2 measurements per country from the
    OpenAQ API, reduces them with a trimmed mean and PATCHes the result into
    a Supabase table.  The embedding follows the script method by method:

    - Python floats are an interface [PyFloat] (the operations the script
      applies to them), instantiated by exact rationals ([ExactModel]) and by
      IEEE binary64 numbers ([Binary64Model]);
    - exceptions are an [outcome] ([Ok] / [Raise]);
    - the network, the clock and the console are a [world] of oracles and a
      trace of [event]s threaded through a state-and-exception monad [M]. *)

From Stdlib Require Import ZArith QArith Qround Lqa Floats Sorting.Sorted.
From stdpp Require Import gmap strings list.

Set Default Proof Using "Type".
Open Scope Z_scope.

(** ** Exceptions *)

(** The exceptions the script can meet; all of them derive from Python's
    [Exception], so every [except Exception] clause catches each of them. *)
Inductive exn :=
| ValueError
| TypeError
| ZeroDivisionError
| RequestException   (* requests: time-out, connection failure, ... *)
| HTTPError (status : Z)
| JSONDecodeError
| OverflowError.

Inductive outcome (A : Type) :=
| Ok (a : A)
| Raise (e : exn).
Arguments Ok {A} a.
Arguments Raise {A} e.

#[global] Instance outcome_ret : MRet outcome := λ A a, Ok a.
#[global] Instance outcome_bind : MBind outcome := λ A B f m,
  match m with
  | Ok a => f a
  | Raise e => Raise e
  end.

(** ** Python floats *)

(** What the script does with a float: [0 + x] and [x / len(...)] (the int
    operand is converted with [of_int]), [x < y] inside [sorted], [bool(x)]
    in [run_etl] and [round(x, 2)] in [update_supabase]. *)
Class PyFloat := {
  pyfloat : Type;
  of_int : Z → pyfloat;
  fadd : pyfloat → pyfloat → pyfloat;
  fdiv : pyfloat → pyfloat → pyfloat;
  flt : pyfloat → pyfloat → bool;
  truthy : pyfloat → bool;
  round2 : pyfloat → pyfloat;
}.

(** [x] is not below zero. *)
Definition nonneg `{PyFloat} (x : pyfloat) : Prop := flt x (of_int 0) = false.

(** [x <= y], read off [<] the way [sorted] does: [y] is not below [x]. *)
Definition fle `{PyFloat} (x y : pyfloat) : Prop := flt y x = false.

(** Laws that hold of a float type without NaN and of the rationals. *)
Class PyFloatOrder (F : PyFloat) : Prop := {
  flt_asym : ∀ x y : pyfloat, flt x y = true → flt y x = false;
  fle_trans : ∀ x y z : pyfloat, fle x y → fle y z → fle x z;
}.

(** Exact arithmetic: addition does not round. *)
Class PyFloatExact (F : PyFloat) : Prop := {
  fadd_comm : ∀ x y : pyfloat, fadd x y = fadd y x;
  fadd_assoc : ∀ x y z : pyfloat, fadd (fadd x y) z = fadd x (fadd y z);
}.

(** Sign rules of addition and of division by a positive count. *)
Class PyFloatSign (F : PyFloat) : Prop := {
  nonneg_zero : nonneg (of_int 0);
  fadd_nonneg : ∀ x y : pyfloat, nonneg x → nonneg y → nonneg (fadd x y);
  fdiv_nonneg : ∀ (x : pyfloat) (n : Z), nonneg x → 0 < n → nonneg (fdiv x (of_int n));
}.

(** ** Built-ins used by the Aggregator *)

Section Builtins.
Context {A : Type}.

(** [if not values] / [if trimmed]: a list is falsy when empty. *)
Definition is_empty (l : list A) : bool :=
  match l with
  | [] => true
  | _ :: _ => false
  end.

(** A slice bound as CPython adjusts it ([PySlice_AdjustIndices], step 1):
    a negative bound counts from the end, and the result is clamped to
    [0 .. len]. *)
Definition slice_index (len : nat) (i : Z) : nat :=
  let i := if bool_decide (i < 0) then i + Z.of_nat len else i in
  Z.to_nat (Z.min (Z.max i 0) (Z.of_nat len)).

(** [l[lo:hi]]. *)
Definition py_slice (l : list A) (lo hi : Z) : list A :=
  let start := slice_index (length l) lo in
  let stop := slice_index (length l) hi in
  take (stop - start) (drop start l).
End Builtins.

Section Aggregator.
Context {F : PyFloat}.

(** [sorted(values)]: Python's sort is stable and compares with [<] only.
    On values that [<] orders totally (no NaN) the stable sorted
    permutation is unique, so this insertion sort returns what [sorted]
    returns. *)
Fixpoint insert_sorted (x : pyfloat) (l : list pyfloat) : list pyfloat :=
  match l with
  | [] => [x]
  | y :: l' => if flt y x then y :: insert_sorted x l' else x :: l
  end.

Fixpoint sorted (values : list pyfloat) : list pyfloat :=
  match values with
  | [] => []
  | x :: values' => insert_sorted x (sorted values')
  end.

(** [sum(l)]: starts from the int [0] and adds from the left (CPython 3.12
    and later compensate the rounding error of the additions; in exact
    arithmetic both give the same sum). *)
Definition py_sum (l : list pyfloat) : pyfloat :=
  foldl fadd (of_int 0) l.

(** [x / n] for an int [n]: raises on [n = 0]. *)
Definition py_truediv (x : pyfloat) (n : Z) : outcome pyfloat :=
  if bool_decide (n = 0) then Raise ZeroDivisionError
  else Ok (fdiv x (of_int n)).

(** The arithmetic mean of a list, in the float arithmetic at hand. *)
Definition arithmetic_mean (l : list pyfloat) : pyfloat :=
  fdiv (py_sum l) (of_int (Z.of_nat (length l))).

(** Lines 145-147 of [_calculate_average]: the values kept for the mean. *)
Definition trim_count_of (len : nat) : Z := Z.max 1 (Z.of_nat len `div` 20).

Definition trimmed_values (values : list pyfloat) : list pyfloat :=
  let sorted_values := sorted values in
  let trim_count := trim_count_of (length sorted_values) in
  if bool_decide (10 < length sorted_values)%nat
  then py_slice sorted_values trim_count (- trim_count)
  else sorted_values.

(** [OpenAQETL._calculate_average]. *)
Definition _calculate_average (values : list pyfloat) : outcome (option pyfloat) :=
  if is_empty values then Ok None
  else
    let trimmed := trimmed_values values in
    if is_empty trimmed then Ok None
    else
      avg ← py_truediv (py_sum trimmed) (Z.of_nat (length trimmed));
      Ok (Some avg).
End Aggregator.

(** ** Two float types *)

(** Exact rationals: floats with rounding abstracted away.  Results are kept
    in lowest terms, so equal numbers are equal terms. *)
Module ExactModel.
Definition Qltb (x y : Q) : bool := negb (Qle_bool y x).

(** Round to the nearest integer, ties to the even one. *)
Definition Qround_half_even (q : Q) : Z :=
  let f := Qfloor q in
  match (q - inject_Z f ?= 1 # 2)%Q with
  | Lt => f
  | Gt => f + 1
  | Eq => if Z.even f then f else f + 1
  end.

Definition Qround2 (x : Q) : Q :=
  Qred (inject_Z (Qround_half_even (x * 100)) / 100).

Definition QFloat : PyFloat := {|
  pyfloat := Q;
  of_int := inject_Z;
  fadd x y := Qred (x + y);
  fdiv x y := Qred (x / y);
  flt := Qltb;
  truthy x := negb (Qeq_bool x 0);
  round2 := Qround2;
|}.
End ExactModel.

(** IEEE 754 binary64, the representation of CPython's float. *)
Module Binary64Model.
(** int to float, correctly rounded. *)
Definition float_of_int (z : Z) : float :=
  SF2Prim (binary_normalize FloatOps.prec emax z 0 false).

(** The exact value of a finite float [m * 2^e]. *)
Definition exact_value (m : positive) (e : Z) : Q :=
  (inject_Z (Z.pos m) * Qpower 2 e)%Q.

(** [round(x, 2)]: CPython rounds the exact binary value to two decimals
    (ties to even) and returns the float nearest to that decimal; the sign
    of [x] is kept, NaN and the infinities round to themselves. *)
Definition float_round2 (x : float) : float :=
  match Prim2SF x with
  | S754_finite s m e =>
      match ExactModel.Qround_half_even (exact_value m e * 100) with
      | Z.pos hundredths =>
          SF2Prim (SFdiv FloatOps.prec emax
                     (S754_finite s hundredths 0) (S754_finite false 100 0))
      | _ => if s then neg_zero else zero
      end
  | _ => x
  end.

Definition Binary64 : PyFloat := {|
  pyfloat := float;
  of_int := float_of_int;
  fadd := PrimFloat.add;
  fdiv := PrimFloat.div;
  flt := PrimFloat.ltb;
  truthy x := negb (PrimFloat.eqb x zero);
  round2 := float_round2;
|}.
End Binary64Model.

(** ** The world: network, clock, console *)

(** [COUNTRIES]: ISO code to display name, in the order of the source. *)
Definition COUNTRIES : list (string * string) :=
  [("DEU", "Germany"); ("POL", "Poland"); ("FRA", "France"); ("ESP", "Spain");
   ("ITA", "Italy"); ("GRC", "Greece"); ("ROU", "Romania"); ("BGR", "Bulgaria");
   ("GBR", "United Kingdom"); ("NLD", "Netherlands"); ("SWE", "Sweden");
   ("PRT", "Portugal")].

(** [COUNTRIES.get(code, default)]. *)
Definition COUNTRIES_get (code default : string) : string :=
  match list_find (λ entry, entry.1 = code) COUNTRIES with
  | Some (_, (_, name)) => name
  | None => default
  end.

(** A [datetime] is a count of microseconds since the epoch; a formatted
    date ([strftime('%Y-%m-%d')]) is the day it falls in. *)
Definition timedelta_days (days : Z) : Z := days * 86400000000.
Definition strftime_date (t : Z) : Z := t `div` 86400000000.

(** [datetime.min] (0001-01-01T00:00:00) and [datetime.max]
    (9999-12-31T23:59:59.999999), in microseconds since the epoch. *)
Definition DATETIME_MIN : Z := -62135596800000000.
Definition DATETIME_MAX : Z := 253402300799999999.

(** What the system clock reads: a time not before the epoch, from which the
    system counts, and not past [datetime.max], so that [utcnow] returns it. *)
Definition clock_reading (t : Z) : Prop := 0 ≤ t ≤ DATETIME_MAX.

(** [end_date - timedelta(days=days_back)] (line 69): [timedelta] refuses
    more than 999999999 days, and the subtraction refuses a result outside
    [datetime.min .. datetime.max]; both raise [OverflowError].  The range
    of the result is checked where [end_date] is a [clock_reading]; a world
    whose clock reads anything else has no [datetime] to start from, and the
    subtraction is then the one on integers. *)
Definition window_start (end_date days_back : Z) : outcome Z :=
  let start_date := end_date - timedelta_days days_back in
  if bool_decide (999999999 < Z.abs days_back) then Raise OverflowError
  else if bool_decide (clock_reading end_date
                       ∧ ¬ (DATETIME_MIN ≤ start_date ≤ DATETIME_MAX))
  then Raise OverflowError
  else Ok start_date.

Section Pipeline.
Context {F : PyFloat}.

(** The [value] of a measurement as [float(...)] sees it. *)
Inductive json_value :=
| JNull
| JNumber (x : pyfloat)
| JNonNumeric.           (* a string that is no number, a list, an object *)

(** One entry of [data['results']]; [value = None] when the key is absent. *)
Record measurement := { value : option json_value }.

(** The decoded body; [results = None] when the key is absent. *)
Record document := { results : option (list measurement) }.

(** A [requests.Response]; [json] is what [response.json()] does. *)
Record response := {
  status_code : Z;
  text : string;
  json : outcome document;
}.

(** The [params] of the measurements query. *)
Record get_request := {
  country : string;
  parameter : string;
  date_from : Z;
  date_to : Z;
  limit : Z;
  order_by : string;
}.

(** A value of the PATCH body: a number, or the ISO text of an instant. *)
Inductive payload_value :=
| PNumber (x : pyfloat)
| PIsoformat (t : Z).

Record patch_request := {
  url : string;
  headers : gmap string string;
  region_code_filter : string;
  json_body : gmap string payload_value;
}.

(** The lines the script prints, one constructor per [print]. *)
Inductive message :=
| Fetched (country_code parameter : string) (avg : pyfloat) (count : nat)
| FetchFailed (parameter country_code : string) (e : exn)
| NoDataToUpdate (region_code : string)
| Updated (region_code : string)
| UpdateFailed (region_code : string) (status : Z) (body : string)
| Rule
| Starting (now : Z)
| Processing (country_code country_name : string)
| NoDataAvailable (country_code : string)
| ProcessingFailed (country_code : string) (e : exn)
| Complete (successful failed : nat)
| FatalError (e : exn).

Inductive event :=
| Print (m : message)
| UtcNow (t : Z)
| HttpGet (req : get_request)
| HttpPatch (req : patch_request).

(** The environment answers each call from the history so far (newest
    event first): the clock, the OpenAQ API and the Supabase API. *)
Record world := {
  clock : list event → Z;
  openaq : list event → get_request → outcome response;
  supabase : list event → patch_request → outcome response;
}.

(** Computations: a trace of events is threaded, exceptions propagate and
    leave the events already emitted in place. *)
Definition M (A : Type) : Type := list event → outcome A * list event.

#[export] Instance M_ret : MRet M := λ A a trace, (Ok a, trace).
#[export] Instance M_bind : MBind M := λ A B f m trace,
  match m trace with
  | (Ok a, trace') => f a trace'
  | (Raise e, trace') => (Raise e, trace')
  end.

Definition lift {A} (o : outcome A) : M A := λ trace, (o, trace).

(** [try: body  except Exception as e: handler e]. *)
Definition try_except {A} (body : M A) (handler : exn → M A) : M A := λ trace,
  match body trace with
  | (Ok a, trace') => (Ok a, trace')
  | (Raise e, trace') => handler e trace'
  end.

Definition print (m : message) : M unit := λ trace, (Ok (), Print m :: trace).

Definition is_network (ev : event) : bool :=
  match ev with
  | HttpGet _ | HttpPatch _ => true
  | _ => false
  end.

Definition is_patch (ev : event) : bool :=
  match ev with
  | HttpPatch _ => true
  | _ => false
  end.

Section World.
Context (w : world).

Definition datetime_utcnow : M Z := λ trace,
  let t := clock w trace in (Ok t, UtcNow t :: trace).

Definition requests_get (req : get_request) : M response := λ trace,
  (openaq w trace req, HttpGet req :: trace).

Definition requests_patch (req : patch_request) : M response := λ trace,
  (supabase w trace req, HttpPatch req :: trace).
End World.
End Pipeline.

(** Unfolds the monad and the primitive actions. *)
Ltac unfold_M :=
  unfold mbind, M_bind, mret, M_ret, lift, print, try_except,
    datetime_utcnow, requests_get, requests_patch.

(** Checks a property of every element of a concrete list, given the
    membership [H]. *)
Ltac each_reading H :=
  repeat (apply elem_of_cons in H as [->|H]; [by split|]);
  by apply elem_of_nil in H.

(** Splits a membership [H] in a concrete list into its cases. *)
Ltac each_element H :=
  repeat (apply elem_of_cons in H as [->|H]); [..|by apply elem_of_nil in H].

(** ** Measurement Fetcher *)

Section Fetcher.
Context {F : PyFloat} (w : world).

(** [response.raise_for_status()]: 4xx and 5xx raise. *)
Definition raise_for_status (r : response) : outcome unit :=
  if bool_decide (400 ≤ status_code r < 600) then Raise (HTTPError (status_code r))
  else Ok ().

(** [float(v)]. *)
Definition py_float (v : json_value) : outcome pyfloat :=
  match v with
  | JNumber x => Ok x
  | JNull => Raise TypeError
  | JNonNumeric => Raise ValueError
  end.

(** The loop of lines 133-135 over [data['results']]. *)
Fixpoint collect_values (rs : list measurement) (measurements : list pyfloat)
  : outcome (list pyfloat) :=
  match rs with
  | [] => Ok measurements
  | result :: rs' =>
      match value result with
      | None | Some JNull => collect_values rs' measurements
      | Some v => x ← py_float v; collect_values rs' (measurements ++ [x])
      end
  end.

(** Lines 130-137: the measurements of a decoded body. *)
Definition measurements_of (data : document) : outcome (list pyfloat) :=
  match results data with
  | Some rs => collect_values rs []
  | None => Ok []
  end.

(** [OpenAQETL._fetch_parameter_data]. *)
Definition _fetch_parameter_data (country_code parameter : string)
    (start_date end_date : Z) : M (list pyfloat) :=
  let params := {|
    country := country_code;
    parameter := parameter;
    date_from := strftime_date start_date;
    date_to := strftime_date end_date;
    limit := 10000;
    order_by := "datetime";
  |} in
  response ← requests_get w params;
  _ ← lift (raise_for_status response);
  data ← lift (json response);
  lift (measurements_of data).

(** ['{:.2f}'.format(x)]: [None] does not support the format. *)
Definition format_2f (x : option pyfloat) : outcome pyfloat :=
  match x with
  | Some x => Ok x
  | None => Raise TypeError
  end.

(** [AggregateResult]: the dict [fetch_country_air_quality] returns. *)
Record AggregateResult := {
  avg_pm25 : option pyfloat;
  avg_no2 : option pyfloat;
  measurement_count : Z;
}.

Definition set_avg_pm25 (avg : option pyfloat) (result : AggregateResult) :=
  {| avg_pm25 := avg; avg_no2 := avg_no2 result;
     measurement_count := measurement_count result |}.

Definition set_avg_no2 (avg : option pyfloat) (result : AggregateResult) :=
  {| avg_pm25 := avg_pm25 result; avg_no2 := avg;
     measurement_count := measurement_count result |}.

(** One of the two [try] blocks of [fetch_country_air_quality] (lines
    78-89 for ["pm25"], 92-103 for ["no2"]); [store] is the assignment to
    [result[...]].  The assignment precedes the [print], so it survives an
    exception raised while formatting. *)
Definition fetch_into (country_code parameter : string) (start_date end_date : Z)
    (store : option pyfloat → AggregateResult → AggregateResult)
    (result : AggregateResult) : M AggregateResult := λ trace,
  match _fetch_parameter_data country_code parameter start_date end_date trace with
  | (Raise e, trace) => (Ok result, Print (FetchFailed parameter country_code e) :: trace)
  | (Ok data, trace) =>
      if is_empty data then (Ok result, trace)
      else
        match _calculate_average data with
        | Raise e => (Ok result, Print (FetchFailed parameter country_code e) :: trace)
        | Ok avg =>
            let result := store avg result in
            match format_2f avg with
            | Raise e =>
                (Ok result, Print (FetchFailed parameter country_code e) :: trace)
            | Ok shown =>
                (Ok result,
                 Print (Fetched country_code parameter shown (length data)) :: trace)
            end
        end
  end.

(** [OpenAQETL.fetch_country_air_quality]. *)
Definition fetch_country_air_quality (country_code : string) (days_back : Z)
  : M AggregateResult :=
  end_date ← datetime_utcnow w;
  start_date ← lift (window_start end_date days_back);
  let result := {| avg_pm25 := None; avg_no2 := None; measurement_count := 0 |} in
  result ← fetch_into country_code "pm25" start_date end_date set_avg_pm25 result;
  result ← fetch_into country_code "no2" start_date end_date set_avg_no2 result;
  mret result.
End Fetcher.

(** ** Region Updater and Orchestrator *)

Section Orchestrator.
Context {F : PyFloat} (w : world).

(** The object built by [OpenAQETL()]. *)
Record OpenAQETL := {
  supabase_url : string;
  supabase_key : string;
}.

(** Truthiness of a string and of an optional float. *)
Definition str_truthy (s : string) : bool := negb (bool_decide (s = "")).

Definition opt_truthy (x : option pyfloat) : bool :=
  match x with
  | Some x => truthy x
  | None => false
  end.

(** [OpenAQETL.__init__], reading the environment through [getenv]. *)
Definition __init__ (getenv : string → option string) : outcome OpenAQETL :=
  match getenv "SUPABASE_URL", getenv "SUPABASE_SERVICE_KEY" with
  | Some supabase_url, Some supabase_key =>
      if negb (str_truthy supabase_url) || negb (str_truthy supabase_key)
      then Raise ValueError
      else Ok {| supabase_url := supabase_url; supabase_key := supabase_key |}
  | _, _ => Raise ValueError
  end.

(** Lines 162-166: the fields of the payload. *)
Definition update_fields (air_quality_data : AggregateResult)
  : gmap string payload_value :=
  let update_data : gmap string payload_value := ∅ in
  let update_data :=
    match avg_pm25 air_quality_data with
    | Some x => <["air_quality_pm25" := PNumber (round2 x)]> update_data
    | None => update_data
    end in
  match avg_no2 air_quality_data with
  | Some x => <["air_quality_no2" := PNumber (round2 x)]> update_data
  | None => update_data
  end.

(** [OpenAQETL.update_supabase]. *)
Definition update_supabase (self : OpenAQETL) (region_code : string)
    (air_quality_data : AggregateResult) : M unit :=
  let url := supabase_url self +:+ "/rest/v1/climate_inequality_regions" in
  let headers : gmap string string :=
    {[ "apikey" := supabase_key self;
       "Authorization" := "Bearer " +:+ supabase_key self;
       "Content-Type" := "application/json";
       "Prefer" := "return=representation" ]} in
  let update_data := update_fields air_quality_data in
  if decide (update_data = ∅) then print (NoDataToUpdate region_code)
  else
    now ← datetime_utcnow w;
    let update_data := <["last_updated" := PIsoformat now]> update_data in
    response ← requests_patch w {|
      url := url;
      headers := headers;
      region_code_filter := "eq." +:+ region_code;
      json_body := update_data;
    |};
    if bool_decide (status_code response ∈ [200; 201; 204])
    then print (Updated region_code)
    else print (UpdateFailed region_code (status_code response) (text response)).

(** The body of the [for] loop of [run_etl] (lines 207-224), with the two
    counters passed in and out. *)
Definition process_country (self : OpenAQETL) (country_code : string)
    (counts : nat * nat) : M (nat * nat) :=
  let '(successful, failed) := counts in
  let country_name := COUNTRIES_get country_code country_code in
  _ ← print (Processing country_code country_name);
  try_except
    (air_quality ← fetch_country_air_quality w country_code 7;
     if opt_truthy (avg_pm25 air_quality) || opt_truthy (avg_no2 air_quality)
     then
       _ ← update_supabase self country_code air_quality;
       mret (S successful, failed)
     else
       _ ← print (NoDataAvailable country_code);
       mret (successful, S failed))
    (λ e,
       _ ← print (ProcessingFailed country_code e);
       mret (successful, S failed)).

Fixpoint for_countries (self : OpenAQETL) (countries : list string)
    (counts : nat * nat) : M (nat * nat) :=
  match countries with
  | [] => mret counts
  | country_code :: countries' =>
      counts ← process_country self country_code counts;
      for_countries self countries' counts
  end.

(** [OpenAQETL.run_etl]. *)
Definition run_etl (self : OpenAQETL) (countries : option (list string)) : M unit :=
  let countries := default (COUNTRIES.*1) countries in
  _ ← print Rule;
  now ← datetime_utcnow w;
  _ ← print (Starting now);
  _ ← print Rule;
  '(successful, failed) ← for_countries self countries (0%nat, 0%nat);
  _ ← print Rule;
  _ ← print (Complete successful failed);
  print Rule.

(** [main], run as a process: the exit status and the trace it leaves.
    [exit(1)] ends the process with status 1; returning from [main] ends it
    with status 0. *)
Definition main (getenv : string → option string) : Z * list event :=
  match __init__ getenv with
  | Raise e => (1, [Print (FatalError e)])
  | Ok etl =>
      match run_etl etl None [] with
      | (Ok _, trace) => (0, trace)
      | (Raise e, trace) => (1, Print (FatalError e) :: trace)
      end
  end.
End Orchestrator.

(** ** Vocabulary of the statements *)

Section Vocabulary.
Context {F : PyFloat}.

(** What [_fetch_parameter_data] makes of the answer to its request: the
    request itself may raise, then the status check, the decoding and the
    conversion of the values. *)
Definition decoded (answer : outcome response) : outcome (list pyfloat) :=
  response ← answer;
  _ ← raise_for_status response;
  data ← json response;
  measurements_of data.

(** The average stored for a parameter, given its decoded measurements:
    none on a failed or empty fetch, else the mean of the kept values. *)
Definition average_of (fetched : outcome (list pyfloat)) : option pyfloat :=
  match fetched with
  | Ok (x :: values) => Some (arithmetic_mean (trimmed_values (x :: values)))
  | _ => None
  end.

(** Every fetch for country [c] raises. *)
Definition fetch_raises (w : world) (c : string) : Prop :=
  ∀ trace req, country req = c → ∃ e, decoded (openaq w trace req) = Raise e.

(** Parameter [p] of country [c] always has measurements whose average is
    truthy (non-zero). *)
Definition has_data (w : world) (c p : string) : Prop :=
  ∀ trace req, country req = c → parameter req = p →
    ∃ avg, average_of (decoded (openaq w trace req)) = Some avg ∧ truthy avg = true.

(** Country [c] succeeds: one of its parameters has data and its partial
    update always gets an answer. *)
Definition country_succeeds (w : world) (c : string) : Prop :=
  (has_data w c "pm25" ∨ has_data w c "no2") ∧
  (∀ trace req, region_code_filter req = "eq." +:+ c →
     ∃ answer, supabase w trace req = Ok answer).

(** The PATCH requests of a trace, oldest first. *)
Definition patches (trace : list event) : list patch_request :=
  reverse (omap (λ ev, match ev with HttpPatch req => Some req | _ => None end) trace).

(** The counters printed by the last summary line of a trace. *)
Definition summary (trace : list event) : option (nat * nat) :=
  head (omap (λ ev, match ev with
                    | Print (Complete successful failed) => Some (successful, failed)
                    | _ => None
                    end) trace).
End Vocabulary.

(** ** Signs of binary64 numbers *)



(** ** Observations on traces and inputs *)

Section Observations.
Context {F : PyFloat}.

(** The GET requests of a trace, oldest first. *)
Definition gets (trace : list event) : list get_request :=
  reverse (omap (λ ev, match ev with HttpGet req => Some req | _ => None end) trace).

(** The query for parameter [p] of country [c] when the clock reads [now]:
    the window ends on the day of [now] and starts [days_back] days earlier. *)
Definition measurements_query (c p : string) (now days_back : Z) : get_request :=
  {| country := c;
     parameter := p;
     date_from := strftime_date now - days_back;
     date_to := strftime_date now;
     limit := 10000;
     order_by := "datetime" |}.

(** The numbers among the values of a result list, in order. *)
Definition numeric_values (rs : list measurement) : list pyfloat :=
  omap (λ r, match value r with Some (JNumber x) => Some x | _ => None end) rs.

(** [x] is strictly above, resp. strictly below, every element of [l]. *)
Definition above (x : pyfloat) (l : list pyfloat) : Prop :=
  ∀ z, z ∈ l → flt z x = true ∧ flt x z = false.

Definition below (x : pyfloat) (l : list pyfloat) : Prop :=
  ∀ z, z ∈ l → flt x z = true ∧ flt z x = false.

(** [<] orders the elements of [l]: on them it is asymmetric, and [<=] as
    read off it is transitive.  This holds of floats that are not NaN. *)
Definition ordered (l : list pyfloat) : Prop :=
  (∀ x y, x ∈ l → y ∈ l → flt x y = true → flt y x = false) ∧
  (∀ x y z, x ∈ l → y ∈ l → z ∈ l → fle x y → fle y z → fle x z).

(** No two distinct elements of [l] compare as equal. *)
Definition distinct_when_ordered (l : list pyfloat) : Prop :=
  ∀ x y, x ∈ l → y ∈ l → fle x y → fle y x → x = y.
End Observations.

(** ** Scenarios *)

(** Worlds whose answers depend on the request alone, used to run the
    pipeline on concrete inputs. *)
Section Scenarios.
Context {F : PyFloat}.

(** A 200 answer whose body lists the given values. *)
Definition measurements (values : list pyfloat) : response :=
  {| status_code := 200;
     text := "";
     json := Ok {| results := Some ((λ x, {| value := Some (JNumber x) |}) <$> values) |} |}.

(** An answer with a status and a body that is not JSON. *)
Definition plain_answer (status : Z) (body : string) : response :=
  {| status_code := status; text := body; json := Raise JSONDecodeError |}.

(** The clock advances by a microsecond per event; the measurements API
    answers by parameter and country, the datastore by region filter. *)
Definition steady_world (pm25 no2 patch : string → outcome response) : world :=
  {| clock := λ trace, 1762198200000000 + Z.of_nat (length trace);
     openaq := λ _ req,
       if decide (parameter req = "pm25") then pm25 (country req) else no2 (country req);
     supabase := λ _ req, patch (region_code_filter req) |}.

Definition demo_etl : OpenAQETL :=
  {| supabase_url := "https://example.supabase.co"; supabase_key := "service-key" |}.
End Scenarios.

Module Binary64Scenarios.
Import Binary64Model.
#[local] Existing Instance Binary64.

(** Every PM2.5 reading is 0.0 and there is no NO2 reading. *)
Definition zero_average_world : world :=
  steady_world (λ _, Ok (measurements [0%float; 0%float; 0%float]))
    (λ _, Ok (measurements []))
    (λ _, Ok (plain_answer 204 "")).

(** Both parameters have data; the datastore answers every update with 500. *)
Definition rejecting_world : world :=
  steady_world (λ _, Ok (measurements [12.5%float; 14.25%float]))
    (λ _, Ok (measurements [20%float]))
    (λ _, Ok (plain_answer 500 "Internal Server Error")).




(** An aggregate with a PM2.5 average only. *)
Definition pm25_only : AggregateResult :=
  {| avg_pm25 := Some 12.251953125%float; avg_no2 := None; measurement_count := 0 |}.

(** Every fetch for Poland raises; the other countries have data. *)
Definition isolation_world : world :=
  steady_world
    (λ c, if decide (c = "POL") then Raise RequestException
          else Ok (measurements [12.5%float; 14.25%float]))
    (λ c, if decide (c = "POL") then Raise RequestException
          else Ok (measurements [20%float]))
    (λ _, Ok (plain_answer 204 "")).
End Binary64Scenarios.

Module Binary64Samples.
Import Binary64Model.
#[local] Existing Instance Binary64.

(** Ten ordinary readings, to be joined by one extreme reading. *)
Definition readings_before : list float :=
  [12.5; 14.25; 9.75; 11; 13.5]%float.

Definition readings_after : list float :=
  [10.25; 15; 12; 8.5; 16.75]%float.

(** The datastore cannot be reached: every PATCH raises. *)
Definition unreachable_store_world : world :=
  steady_world (λ _, Ok (measurements [12.5%float; 14.25%float]))
    (λ _, Ok (measurements [20%float]))
    (λ _, Raise RequestException).

(** The measurements API is down: every GET raises. *)
Definition outage_world : world :=
  steady_world (λ _, Raise RequestException) (λ _, Raise RequestException)
    (λ _, Ok (plain_answer 204 "")).

(** The same three readings, the large one first or last: added from the
    left in the order given, the two lists have different sums. *)
Definition large_first : list float := [9007199254740992; 1; 1]%float.

Definition large_last : list float := [1; 1; 9007199254740992]%float.

(** A result list with a null, a missing and two numeric values. *)
Definition mixed_results : list measurement :=
  [ {| value := Some (JNumber 12.5%float) |}; {| value := Some JNull |};
    {| value := None |}; {| value := Some (JNumber 9.75%float) |} ].

(** A result list with one value that is no number. *)
Definition poisoned_results : list measurement :=
  [ {| value := Some (JNumber 12.5%float) |}; {| value := Some JNonNumeric |};
    {| value := Some (JNumber 9.75%float) |} ].
End Binary64Samples.

(** * Properties of the Aggregator *)

Section AggregatorFacts.
Context {F : PyFloat}.
Implicit Types (x : pyfloat) (values l : list pyfloat).

Lemma insert_sorted_perm x l : insert_sorted x l ≡ₚ x :: l.
Proof.
  induction l as [|y l IH]; simpl; [done|].
  destruct (flt y x); [|done].
  rewrite IH. apply Permutation_swap.
Qed.

Lemma sorted_perm values : sorted values ≡ₚ values.
Proof.
  induction values as [|x values IH]; simpl; [done|].
  by rewrite insert_sorted_perm, IH.
Qed.

Lemma length_sorted values : length (sorted values) = length values.
Proof. by rewrite sorted_perm. Qed.

Lemma insert_sorted_hdrel `{!PyFloatOrder F} a x l :
  fle a x → HdRel fle a l → HdRel fle a (insert_sorted x l).
Proof.
  intros Hax Hl. destruct l as [|y l]; simpl; [by constructor|].
  inversion_clear Hl. destruct (flt y x); by constructor.
Qed.

Lemma insert_sorted_ascending `{!PyFloatOrder F} x l :
  Sorted fle l → Sorted fle (insert_sorted x l).
Proof.
  induction 1 as [|y l Hl IH Hy]; simpl; [by repeat constructor|].
  destruct (flt y x) eqn:Hyx.
  - constructor; [done|]. apply insert_sorted_hdrel; [|done].
    by apply flt_asym.
  - by repeat constructor.
Qed.

(** [sorted] returns an ascending list ... *)
Lemma sorted_ascending `{!PyFloatOrder F} values :
  StronglySorted fle (sorted values).
Proof.
  apply Sorted_StronglySorted; [intros x y z; apply fle_trans|].
  induction values; simpl; [constructor|by apply insert_sorted_ascending].
Qed.

(** ... and in exact arithmetic the order of summation does not matter. *)
Lemma foldl_fadd_perm `{!PyFloatExact F} l1 l2 :
  l1 ≡ₚ l2 → ∀ a, foldl fadd a l1 = foldl fadd a l2.
Proof.
  induction 1 as [|x l1 l2 _ IH|x y l|l1 l2 l3 _ IH1 _ IH2]; intros a; simpl.
  - done.
  - apply IH.
  - f_equal. by rewrite !fadd_assoc, (fadd_comm y x).
  - by rewrite IH1.
Qed.

Lemma arithmetic_mean_perm `{!PyFloatExact F} l1 l2 :
  l1 ≡ₚ l2 → arithmetic_mean l1 = arithmetic_mean l2.
Proof.
  intros Hp. unfold arithmetic_mean, py_sum.
  by rewrite (foldl_fadd_perm _ _ Hp), Hp.
Qed.


(** The trim count is below half the length as soon as trimming applies. *)
Lemma trim_count_of_bounds (n : nat) :
  (10 < n)%nat → 1 ≤ trim_count_of n ∧ 2 * trim_count_of n < Z.of_nat n.
Proof.
  intros Hn. unfold trim_count_of.
  pose proof (Z.div_mod (Z.of_nat n) 20 ltac:(done)) as Hdiv.
  pose proof (Z.mod_pos_bound (Z.of_nat n) 20 ltac:(done)) as Hmod.
  lia.
Qed.

(** [l[t:-t]] for [1 <= t] and [2t <= len(l)]: [t] elements go at each end. *)
Lemma py_slice_trim {A} (l : list A) (t : Z) :
  1 ≤ t → 2 * t ≤ Z.of_nat (length l) →
  py_slice l t (- t) = take (length l - 2 * Z.to_nat t) (drop (Z.to_nat t) l).
Proof.
  intros Ht Hl. unfold py_slice, slice_index.
  rewrite (bool_decide_eq_false_2 (t < 0)) by lia.
  rewrite (bool_decide_eq_true_2 (- t < 0)) by lia.
  rewrite !Z.max_l, !Z.min_l by lia.
  f_equal; lia.
Qed.

Lemma trimmed_values_long values :
  (10 < length values)%nat →
  trimmed_values values =
    take (length values - 2 * Z.to_nat (trim_count_of (length values)))
      (drop (Z.to_nat (trim_count_of (length values))) (sorted values)).
Proof.
  intros Hn. unfold trimmed_values. rewrite length_sorted.
  rewrite bool_decide_eq_true_2 by done.
  destruct (trim_count_of_bounds _ Hn) as [H1 H2].
  rewrite py_slice_trim, length_sorted; [done|done|].
  rewrite length_sorted. lia.
Qed.

Lemma trimmed_values_short values :
  (length values ≤ 10)%nat → trimmed_values values = sorted values.
Proof.
  intros Hn. unfold trimmed_values. rewrite length_sorted.
  by rewrite bool_decide_eq_false_2 by lia.
Qed.

Lemma length_trimmed_values values :
  length (trimmed_values values) =
    if bool_decide (10 < length values)%nat
    then (length values - 2 * Z.to_nat (trim_count_of (length values)))%nat
    else length values.
Proof.
  case_bool_decide as Hn.
  - rewrite trimmed_values_long by done.
    destruct (trim_count_of_bounds _ Hn) as [H1 H2].
    rewrite length_take, length_drop, length_sorted. lia.
  - rewrite trimmed_values_short by lia. apply length_sorted.
Qed.

(** Trimming never empties a non-empty list. *)
Lemma trimmed_values_nonempty values :
  values ≠ [] → (0 < length (trimmed_values values))%nat.
Proof.
  intros Hne. rewrite length_trimmed_values.
  assert (0 < length values)%nat by (destruct values; [done|simpl; lia]).
  case_bool_decide as Hn; [|done].
  destruct (trim_count_of_bounds _ Hn). lia.
Qed.

Lemma is_empty_true {A} (l : list A) : is_empty l = true ↔ l = [].
Proof. by destruct l. Qed.

Lemma is_empty_false {A} (l : list A) : is_empty l = false ↔ l ≠ [].
Proof. by destruct l. Qed.

(** On a non-empty list the Aggregator returns the mean of the kept values. *)
Lemma calculate_average_nonempty values :
  values ≠ [] →
  _calculate_average values = Ok (Some (arithmetic_mean (trimmed_values values))).
Proof.
  intros Hne. unfold _calculate_average.
  pose proof (trimmed_values_nonempty _ Hne) as Hlen.
  rewrite (proj2 (is_empty_false values)) by done.
  rewrite (proj2 (is_empty_false (trimmed_values values)))
    by (intros E; rewrite E in Hlen; simpl in Hlen; lia).
  unfold py_truediv. by rewrite bool_decide_eq_false_2 by lia.
Qed.

Lemma calculate_average_empty : _calculate_average [] = Ok None.
Proof. done. Qed.

Lemma trimmed_values_elem x values : x ∈ trimmed_values values → x ∈ values.
Proof.
  unfold trimmed_values, py_slice. case_bool_decide.
  - intros Hx%subseteq_take%subseteq_drop. by rewrite sorted_perm in Hx.
  - intros Hx. by rewrite sorted_perm in Hx.
Qed.

End AggregatorFacts.

(** * The rationals satisfy the laws *)

Module ExactFacts.
Import ExactModel.

Lemma Qltb_false (x y : Q) : Qltb x y = false ↔ (y <= x)%Q.
Proof.
  unfold Qltb. rewrite negb_false_iff. apply Qle_bool_iff.
Qed.

Lemma Qltb_true (x y : Q) : Qltb x y = true ↔ (x < y)%Q.
Proof.
  unfold Qltb. rewrite negb_true_iff, <-not_true_iff_false, Qle_bool_iff.
  split; [apply Qnot_le_lt|apply Qlt_not_le].
Qed.

Lemma QFloat_order : PyFloatOrder QFloat.
Proof.
  split.
  - intros x y Hxy%Qltb_true. apply Qltb_false. by apply Qlt_le_weak.
  - intros x y z Hxy%Qltb_false Hyz%Qltb_false. apply Qltb_false.
    by apply Qle_trans with y.
Qed.

Lemma QFloat_exact : PyFloatExact QFloat.
Proof.
  split; simpl.
  - intros x y. apply Qred_complete, Qplus_comm.
  - intros x y z. apply Qred_complete.
    rewrite !Qred_correct. symmetry. apply Qplus_assoc.
Qed.

Lemma QFloat_sign : PyFloatSign QFloat.
Proof.
  split; unfold nonneg; simpl.
  - by apply Qltb_false.
  - intros x y Hx%Qltb_false Hy%Qltb_false. apply Qltb_false.
    rewrite Qred_correct.
    change (inject_Z 0) with (0 + 0)%Q. by apply Qplus_le_compat.
  - intros x n Hx%Qltb_false Hn. apply Qltb_false.
    rewrite Qred_correct. apply Qle_shift_div_l.
    + change 0%Q with (inject_Z 0). by rewrite <-Zlt_Qlt.
    + by rewrite Qmult_0_l.
Qed.
End ExactFacts.

(** * Properties of the pipeline *)

Section PipelineFacts.
Context {F : PyFloat} (w : world).

(** [_fetch_parameter_data] issues one GET and decodes its answer. *)
Lemma fetch_parameter_data_spec c p start_date end_date trace :
  ∃ req, country req = c ∧ parameter req = p ∧
    _fetch_parameter_data w c p start_date end_date trace =
      (decoded (openaq w trace req), HttpGet req :: trace).
Proof.
  exists {| country := c; parameter := p;
            date_from := strftime_date start_date;
            date_to := strftime_date end_date;
            limit := 10000; order_by := "datetime" |}.
  split_and!; [done|done|].
  unfold _fetch_parameter_data, decoded. unfold_M.
  simpl. destruct (openaq w trace _) as [r|e]; simpl; [|done].
  destruct (raise_for_status r); simpl; [|done].
  by destruct (json r).
Qed.

(** A [try] block of [fetch_country_air_quality] never raises; it stores
    [average_of] the decoded answer. *)
Lemma fetch_into_spec c p start_date end_date store result trace :
  store None result = result →
  ∃ req trace',
    country req = c ∧ parameter req = p ∧
    fetch_into w c p start_date end_date store result trace =
      (Ok (store (average_of (decoded (openaq w trace req))) result), trace') ∧
    patches trace' = patches trace.
Proof.
  intros Hstore.
  destruct (fetch_parameter_data_spec c p start_date end_date trace)
    as (req & Hc & Hp & Hfetch).
  exists req. unfold fetch_into. rewrite Hfetch.
  destruct (decoded (openaq w trace req)) as [[|x values]|e]; simpl.
  - eexists. by rewrite Hstore.
  - rewrite calculate_average_nonempty by done. simpl. by eexists.
  - eexists. by rewrite Hstore.
Qed.

(** The window of the default seven days never raises. *)
Lemma window_start_default end_date :
  window_start end_date 7 = Ok (end_date - timedelta_days 7).
Proof.
  unfold window_start. rewrite bool_decide_eq_false_2 by done.
  rewrite bool_decide_eq_false_2; [done|].
  unfold clock_reading, timedelta_days, DATETIME_MIN, DATETIME_MAX. lia.
Qed.



(** When its window does not raise, [fetch_country_air_quality] does not
    either, and it issues no PATCH; each average is [average_of] the decoded
    answer to that parameter's GET. *)
Lemma fetch_country_air_quality_spec c days_back trace :
  window_start (clock w trace) days_back =
    Ok (clock w trace - timedelta_days days_back) →
  ∃ req_pm25 trace_pm25 req_no2 trace_no2 trace',
    country req_pm25 = c ∧ parameter req_pm25 = "pm25" ∧
    country req_no2 = c ∧ parameter req_no2 = "no2" ∧
    fetch_country_air_quality w c days_back trace =
      (Ok {| avg_pm25 := average_of (decoded (openaq w trace_pm25 req_pm25));
             avg_no2 := average_of (decoded (openaq w trace_no2 req_no2));
             measurement_count := 0 |}, trace') ∧
    patches trace' = patches trace.
Proof.
  intros Hwindow.
  unfold fetch_country_air_quality. unfold_M. simpl. rewrite Hwindow.
  set (start_date := _ - _). set (end_date := clock w trace).
  set (trace1 := UtcNow _ :: trace).
  destruct (fetch_into_spec c "pm25" start_date end_date set_avg_pm25
              {| avg_pm25 := None; avg_no2 := None; measurement_count := 0 |} trace1)
    as (req1 & trace2 & Hc1 & Hp1 & -> & Htr2); [done|].
  destruct (fetch_into_spec c "no2" start_date end_date set_avg_no2
              (set_avg_pm25 (average_of (decoded (openaq w trace1 req1)))
                 {| avg_pm25 := None; avg_no2 := None; measurement_count := 0 |}) trace2)
    as (req2 & trace3 & Hc2 & Hp2 & -> & Htr3); [by destruct (average_of _)|].
  exists req1, trace1, req2, trace2, trace3. split_and!; try done.
  by rewrite Htr3, Htr2.
Qed.

(** With the default window of seven days it never raises. *)
Lemma fetch_country_air_quality_default c trace :
  ∃ req_pm25 trace_pm25 req_no2 trace_no2 trace',
    country req_pm25 = c ∧ parameter req_pm25 = "pm25" ∧
    country req_no2 = c ∧ parameter req_no2 = "no2" ∧
    fetch_country_air_quality w c 7 trace =
      (Ok {| avg_pm25 := average_of (decoded (openaq w trace_pm25 req_pm25));
             avg_no2 := average_of (decoded (openaq w trace_no2 req_no2));
             measurement_count := 0 |}, trace') ∧
    patches trace' = patches trace.
Proof. apply fetch_country_air_quality_spec, window_start_default. Qed.

Lemma patches_cons ev trace :
  patches (ev :: trace) =
    patches trace ++ match ev with HttpPatch req => [req] | _ => [] end.
Proof.
  unfold patches. destruct ev; simpl; by rewrite ?reverse_cons, ?app_nil_r.
Qed.

Lemma gets_cons ev trace :
  gets (ev :: trace) =
    gets trace ++ match ev with HttpGet req => [req] | _ => [] end.
Proof.
  unfold gets. destruct ev; simpl; by rewrite ?reverse_cons, ?app_nil_r.
Qed.

Lemma strftime_date_timedelta (t days : Z) :
  strftime_date (t - timedelta_days days) = strftime_date t - days.
Proof.
  unfold strftime_date, timedelta_days.
  replace (t - days * 86400000000) with (t + (- days) * 86400000000) by lia.
  rewrite Z.div_add by done. lia.
Qed.

Lemma fetch_parameter_data_query c p start_date end_date trace :
  let query := {| country := c; parameter := p;
                  date_from := strftime_date start_date;
                  date_to := strftime_date end_date;
                  limit := 10000; order_by := "datetime" |} in
  _fetch_parameter_data w c p start_date end_date trace =
    (decoded (openaq w trace query), HttpGet query :: trace).
Proof.
  intros query. unfold _fetch_parameter_data, decoded. unfold_M. simpl.
  fold query. destruct (openaq w trace query) as [r|e]; simpl; [|done].
  destruct (raise_for_status r); simpl; [|done].
  by destruct (json r).
Qed.

Lemma fetch_into_query c p start_date end_date store result trace :
  store None result = result →
  let query := {| country := c; parameter := p;
                  date_from := strftime_date start_date;
                  date_to := strftime_date end_date;
                  limit := 10000; order_by := "datetime" |} in
  ∃ trace',
    fetch_into w c p start_date end_date store result trace =
      (Ok (store (average_of (decoded (openaq w trace query))) result), trace') ∧
    gets trace' = gets trace ++ [query] ∧
    patches trace' = patches trace.
Proof.
  intros Hstore query. unfold fetch_into.
  rewrite fetch_parameter_data_query. fold query.
  destruct (decoded (openaq w trace query)) as [[|x values]|e]; simpl.
  - eexists. rewrite Hstore. split_and!; [done| |done].
    by rewrite gets_cons.
  - rewrite calculate_average_nonempty by done. simpl.
    eexists. split_and!; [done| |done]. by rewrite !gets_cons, app_nil_r.
  - eexists. rewrite Hstore. split_and!; [done| |done].
    by rewrite !gets_cons, app_nil_r.
Qed.

(** The requests of [fetch_country_air_quality] and where its averages
    come from. *)
Lemma fetch_country_air_quality_sends c days_back trace :
  let now := clock w trace in
  window_start now days_back = Ok (now - timedelta_days days_back) →
  ∃ aq trace' trace_pm25 trace_no2,
    fetch_country_air_quality w c days_back trace = (Ok aq, trace') ∧
    gets trace' =
      gets trace ++ [measurements_query c "pm25" now days_back;
                     measurements_query c "no2" now days_back] ∧
    patches trace' = patches trace ∧
    avg_pm25 aq =
      average_of (decoded (openaq w trace_pm25 (measurements_query c "pm25" now days_back))) ∧
    avg_no2 aq =
      average_of (decoded (openaq w trace_no2 (measurements_query c "no2" now days_back))) ∧
    measurement_count aq = 0.
Proof.
  intros now Hwindow. unfold fetch_country_air_quality. unfold_M. simpl. fold now.
  rewrite Hwindow.
  destruct (fetch_into_query c "pm25" (now - timedelta_days days_back) now set_avg_pm25
              {| avg_pm25 := None; avg_no2 := None; measurement_count := 0 |}
              (UtcNow now :: trace))
    as (trace1 & -> & Hgets1 & Hpatches1); [done|].
  rewrite strftime_date_timedelta in Hgets1 |- *.
  fold (measurements_query c "pm25" now days_back) in Hgets1 |- *.
  set (aq1 := set_avg_pm25 _ _).
  destruct (fetch_into_query c "no2" (now - timedelta_days days_back) now set_avg_no2
              aq1 trace1)
    as (trace2 & -> & Hgets2 & Hpatches2); [by destruct (average_of _)|].
  rewrite strftime_date_timedelta in Hgets2 |- *.
  fold (measurements_query c "no2" now days_back) in Hgets2 |- *.
  eexists _, trace2, (UtcNow now :: trace), trace1.
  split_and!; [done| | |done..].
  - by rewrite Hgets2, Hgets1, gets_cons, app_nil_r, <-app_assoc.
  - by rewrite Hpatches2, Hpatches1, patches_cons, app_nil_r.
Qed.

Context (self : OpenAQETL).

(** The payload fields: one per non-null average, rounded, and no other. *)
Lemma update_fields_lookup aq k :
  update_fields aq !! k =
    if decide (k = "air_quality_pm25") then PNumber ∘ round2 <$> avg_pm25 aq
    else if decide (k = "air_quality_no2") then PNumber ∘ round2 <$> avg_no2 aq
    else None.
Proof.
  unfold update_fields.
  destruct (avg_pm25 aq), (avg_no2 aq); repeat case_decide; by simplify_map_eq.
Qed.

Lemma update_fields_empty aq :
  update_fields aq = ∅ ↔ avg_pm25 aq = None ∧ avg_no2 aq = None.
Proof.
  unfold update_fields. split.
  - destruct (avg_pm25 aq), (avg_no2 aq); intros E; try done;
      by apply insert_non_empty in E.
  - by intros [-> ->].
Qed.

(** With no field to write, [update_supabase] returns before any request. *)
Lemma update_supabase_skip region aq trace :
  update_fields aq = ∅ →
  update_supabase w self region aq trace =
    (Ok (), Print (NoDataToUpdate region) :: trace).
Proof. intros E. unfold update_supabase. by rewrite decide_True. Qed.

(** Otherwise it reads the clock and issues exactly one PATCH; it raises
    only if the request itself raises, whatever the status of the answer. *)
Lemma update_supabase_spec region aq trace :
  update_fields aq ≠ ∅ →
  let now := clock w trace in
  ∃ req,
    json_body req = <["last_updated" := PIsoformat now]> (update_fields aq) ∧
    region_code_filter req = "eq." +:+ region ∧
    url req = supabase_url self +:+ "/rest/v1/climate_inequality_regions" ∧
    update_supabase w self region aq trace =
      match supabase w (UtcNow now :: trace) req with
      | Raise e => (Raise e, HttpPatch req :: UtcNow now :: trace)
      | Ok answer =>
          (Ok (),
           Print (if bool_decide (status_code answer ∈ [200; 201; 204])
                  then Updated region
                  else UpdateFailed region (status_code answer) (text answer))
             :: HttpPatch req :: UtcNow now :: trace)
      end.
Proof.
  intros Hne now.
  exists {|
    url := supabase_url self +:+ "/rest/v1/climate_inequality_regions";
    headers := {[ "apikey" := supabase_key self;
                  "Authorization" := "Bearer " +:+ supabase_key self;
                  "Content-Type" := "application/json";
                  "Prefer" := "return=representation" ]};
    region_code_filter := "eq." +:+ region;
    json_body := <["last_updated" := PIsoformat now]> (update_fields aq) |}.
  split_and!; [done..|].
  unfold update_supabase. rewrite decide_False by done.
  unfold_M. simpl. destruct (supabase w _ _) as [answer|e]; [|done].
  by case_bool_decide.
Qed.

(** One iteration of the loop: the fetch never raises; the country is
    counted as successful when an average is truthy and [update_supabase]
    returns, as failed otherwise. No exception leaves the iteration. *)
Lemma process_country_spec c successful failed trace :
  ∃ aq trace1,
    fetch_country_air_quality w c 7
      (Print (Processing c (COUNTRIES_get c c)) :: trace) = (Ok aq, trace1) ∧
    patches trace1 = patches trace ∧
    process_country w self c (successful, failed) trace =
      if opt_truthy (avg_pm25 aq) || opt_truthy (avg_no2 aq)
      then
        match update_supabase w self c aq trace1 with
        | (Ok _, trace2) => (Ok (S successful, failed), trace2)
        | (Raise e, trace2) =>
            (Ok (successful, S failed), Print (ProcessingFailed c e) :: trace2)
        end
      else (Ok (successful, S failed), Print (NoDataAvailable c) :: trace1).
Proof.
  destruct (fetch_country_air_quality_default c
              (Print (Processing c (COUNTRIES_get c c)) :: trace))
    as (req1 & tr1 & req2 & tr2 & trace1 & _ & _ & _ & _ & Hfetch & Htr).
  eexists _, trace1. split_and!; [done..|].
  unfold process_country. unfold_M. rewrite Hfetch. simpl.
  destruct (_ || _); [|done].
  by destruct (update_supabase _ _ _ _ _) as [[[]|e] trace2].
Qed.

Lemma process_country_total c successful failed trace :
  ∃ counts trace',
    process_country w self c (successful, failed) trace = (Ok counts, trace') ∧
    (counts = (S successful, failed) ∨ counts = (successful, S failed)).
Proof.
  destruct (process_country_spec c successful failed trace)
    as (aq & trace1 & _ & _ & ->).
  destruct (_ || _); [|naive_solver].
  destruct (update_supabase _ _ _ _ _) as [[[]|e] trace2]; naive_solver.
Qed.

(** The loop handles every country and never raises. *)
Lemma for_countries_total countries successful failed trace :
  ∃ successful' failed' trace',
    for_countries w self countries (successful, failed) trace =
      (Ok (successful', failed'), trace') ∧
    (successful' + failed' = successful + failed + length countries)%nat.
Proof.
  revert successful failed trace.
  induction countries as [|c countries IH]; intros successful failed trace;
    cbn [for_countries length].
  - exists successful, failed, trace. split; [done|lia].
  - unfold mbind at 1. unfold M_bind at 1.
    destruct (process_country_total c successful failed trace)
      as (counts & trace1 & -> & [-> | ->]).
    + destruct (IH (S successful) failed trace1) as (s' & f' & trace' & -> & Hsum).
      exists s', f', trace'. split; [done|lia].
    + destruct (IH successful (S failed) trace1) as (s' & f' & trace' & -> & Hsum).
      exists s', f', trace'. split; [done|lia].
Qed.

(** [run_etl] in terms of its loop. *)
Lemma run_etl_unfold countries trace :
  let now := clock w (Print Rule :: trace) in
  let trace0 := Print Rule :: Print (Starting now) :: UtcNow now :: Print Rule :: trace in
  run_etl w self countries trace =
    match for_countries w self (default (COUNTRIES.*1) countries) (0, 0)%nat trace0 with
    | (Ok (successful, failed), trace') =>
        (Ok (), Print Rule :: Print (Complete successful failed) :: Print Rule :: trace')
    | (Raise e, trace') => (Raise e, trace')
    end.
Proof.
  intros now trace0. unfold run_etl. unfold_M. simpl.
  by destruct (for_countries _ _ _ _ _) as [[[]|] ?].
Qed.

(** No exception escapes [run_etl]; it ends with the summary line, whose
    counters add up to the number of countries. *)
Lemma run_etl_total countries trace :
  ∃ successful failed trace',
    run_etl w self countries trace =
      (Ok (), Print Rule :: Print (Complete successful failed) :: trace') ∧
    (successful + failed = length (default (COUNTRIES.*1) countries))%nat.
Proof.
  rewrite run_etl_unfold. cbv zeta.
  destruct (for_countries_total (default (COUNTRIES.*1) countries) 0 0
              (Print Rule :: Print (Starting (clock w (Print Rule :: trace)))
                 :: UtcNow (clock w (Print Rule :: trace)) :: Print Rule :: trace))
    as (s & f & trace' & -> & Hsum).
  by exists s, f, (Print Rule :: trace').
Qed.
End PipelineFacts.

(** * Claims about the Aggregator *)

Section AggregatorClaims.
Context {F : PyFloat}.
Implicit Types (values : list pyfloat).

(** The sorted list splits into the [trim] lowest values, the kept values
    and the [trim] highest ones. *)
Lemma trimmed_values_split values :
  (10 < length values)%nat →
  let trim := Z.to_nat (trim_count_of (length values)) in
  sorted values =
    take trim (sorted values) ++ trimmed_values values
      ++ drop (length values - trim) (sorted values) ∧
  length (take trim (sorted values)) = trim ∧
  length (drop (length values - trim) (sorted values)) = trim.
Proof.
  intros Hn trim. destruct (trim_count_of_bounds _ Hn) as [H1 H2].
  rewrite trimmed_values_long by done. fold trim.
  assert (2 * trim < length values)%nat as Htrim by (unfold trim; lia).
  split_and!.
  - replace (length values - trim)%nat
      with (trim + (length values - 2 * trim))%nat by lia.
    by rewrite <-drop_drop, !take_drop.
  - rewrite length_take, length_sorted. lia.
  - rewrite length_drop, length_sorted. lia.
Qed.

(** C6: a non-empty list of at most ten values is not trimmed: every value
    is kept (the kept list is a permutation of the input) and the result is
    the arithmetic mean of all of them, summed in ascending order; where
    addition is exact this is the mean of the input as given. *)
Theorem calculate_average_small_sample values :
  values ≠ [] → (length values ≤ 10)%nat →
  trimmed_values values ≡ₚ values ∧
  _calculate_average values = Ok (Some (arithmetic_mean (sorted values))) ∧
  (PyFloatExact F → _calculate_average values = Ok (Some (arithmetic_mean values))).
Proof.
  intros Hne Hn.
  assert (_calculate_average values = Ok (Some (arithmetic_mean (sorted values)))) as Havg.
  { by rewrite calculate_average_nonempty, trimmed_values_short. }
  split_and!.
  - rewrite trimmed_values_short by done. apply sorted_perm.
  - done.
  - intros Hexact. rewrite Havg. do 2 f_equal.
    apply arithmetic_mean_perm, sorted_perm.
Qed.

(** C7: the Aggregator returns on every list and never divides by zero; it
    returns null on the empty list, and null whenever nothing is kept. *)
Theorem calculate_average_total values :
  (∃ result, _calculate_average values = Ok result) ∧
  (∀ e, _calculate_average values ≠ Raise e) ∧
  _calculate_average [] = Ok None ∧
  (trimmed_values values = [] → _calculate_average values = Ok None).
Proof.
  assert (∃ result, _calculate_average values = Ok result) as [result Hresult].
  { destruct (decide (values = [])) as [->|Hne]; [by eexists|].
    rewrite calculate_average_nonempty by done. by eexists. }
  split_and!.
  - by exists result.
  - intros e. by rewrite Hresult.
  - done.
  - intros Hkept. unfold _calculate_average. rewrite Hkept. simpl.
    by destruct (is_empty values).
Qed.

(** C10: the result is null exactly on the empty list: trimming applies
    above ten values only, where it removes fewer values than there are, so
    a non-empty list keeps a value and has an average. *)
Theorem calculate_average_null_iff_empty values :
  (_calculate_average values = Ok None ↔ values = []) ∧
  (values ≠ [] →
     trimmed_values values ≠ [] ∧ ∃ avg, _calculate_average values = Ok (Some avg)) ∧
  ((10 < length values)%nat →
     2 * Z.max 1 (Z.of_nat (length values) `div` 20) < Z.of_nat (length values)).
Proof.
  split_and!.
  - split; [|by intros ->].
    destruct (decide (values = [])) as [->|Hne]; [done|].
    by rewrite calculate_average_nonempty.
  - intros Hne. split.
    + intros Hkept. pose proof (trimmed_values_nonempty _ Hne) as Hlen.
      rewrite Hkept in Hlen. simpl in Hlen. lia.
    + rewrite calculate_average_nonempty by done. by eexists.
  - intros Hn. by destruct (trim_count_of_bounds _ Hn).
Qed.
End AggregatorClaims.

(** C3: above ten values the Aggregator sorts ascending, drops
    [max(1, n // 20)] values at each end of the sorted list and returns the
    arithmetic mean of the rest; on [1 .. 11] that is one value at each end
    and the result is 6.0 (as a binary64 float and as a rational). *)
Theorem calculate_average_trimmed_mean :
  (∀ (F : PyFloat) (values : list pyfloat),
     (10 < length values)%nat →
     ∃ low kept high,
       sorted values = low ++ kept ++ high ∧
       length low = Z.to_nat (Z.max 1 (Z.of_nat (length values) `div` 20)) ∧
       length high = Z.to_nat (Z.max 1 (Z.of_nat (length values) `div` 20)) ∧
       sorted values ≡ₚ values ∧
       (PyFloatOrder F → StronglySorted fle (sorted values)) ∧
       _calculate_average values = Ok (Some (arithmetic_mean kept))) ∧
  @_calculate_average Binary64Model.Binary64
    [1; 2; 3; 4; 5; 6; 7; 8; 9; 10; 11]%float = Ok (Some 6%float) ∧
  @trimmed_values Binary64Model.Binary64
    [1; 2; 3; 4; 5; 6; 7; 8; 9; 10; 11]%float = [2; 3; 4; 5; 6; 7; 8; 9; 10]%float ∧
  @_calculate_average ExactModel.QFloat
    [1; 2; 3; 4; 5; 6; 7; 8; 9; 10; 11]%Q = Ok (Some 6%Q).
Proof.
  split_and!; [|by vm_compute..].
  intros F values Hn.
  destruct (trimmed_values_split values Hn) as (Hsplit & Hlow & Hhigh).
  eexists _, (trimmed_values values), _. split_and!; [exact Hsplit|done|done|..].
  - apply sorted_perm.
  - intros Horder. apply sorted_ascending.
  - apply calculate_average_nonempty. by destruct values.
Qed.

(** The trimmed mean on a shuffled sample of twenty-three rationals. *)
Lemma calculate_average_trimmed_mean_witness :
  ∃ low kept high,
    @sorted ExactModel.QFloat
      [23; 1; 22; 2; 21; 3; 20; 4; 19; 5; 18; 6; 17; 7; 16; 8; 15; 9; 14; 10; 13; 11; 12]%Q
      = low ++ kept ++ high ∧
    length low = 1%nat ∧ length high = 1%nat ∧
    @_calculate_average ExactModel.QFloat
      [23; 1; 22; 2; 21; 3; 20; 4; 19; 5; 18; 6; 17; 7; 16; 8; 15; 9; 14; 10; 13; 11; 12]%Q
      = Ok (Some (arithmetic_mean kept)).
Proof.
  destruct (proj1 calculate_average_trimmed_mean ExactModel.QFloat
    [23; 1; 22; 2; 21; 3; 20; 4; 19; 5; 18; 6; 17; 7; 16; 8; 15; 9; 14; 10; 13; 11; 12]%Q)
    as (low & kept & high & Hsplit & Hlow & Hhigh & _ & _ & Havg).
  - simpl. lia.
  - exists low, kept, high. split_and!; [exact Hsplit|exact Hlow|exact Hhigh|exact Havg].
Defined.

(** Three rationals: nothing is trimmed, the mean is 2. *)
Lemma calculate_average_small_sample_witness :
  @_calculate_average ExactModel.QFloat [3; 1; 2]%Q
    = Ok (Some (@arithmetic_mean ExactModel.QFloat [3; 1; 2]%Q)) ∧
  @arithmetic_mean ExactModel.QFloat [3; 1; 2]%Q = 2%Q.
Proof.
  split; [|reflexivity].
  apply (@calculate_average_small_sample ExactModel.QFloat [3; 1; 2]%Q).
  - discriminate.
  - simpl. lia.
  - exact ExactFacts.QFloat_exact.
Defined.

(** * Claims about the Updater and the Orchestrator *)

Section OrchestratorClaims.
Context {F : PyFloat} (w : world) (self : OpenAQETL).

(** C5: when an average is non-null, [update_supabase] issues one PATCH for
    the region whose body holds the rounded value of each non-null average
    under its key, the instant read from the clock under [last_updated], and
    no other key: a null average has no key. *)
Theorem update_supabase_payload region aq trace :
  avg_pm25 aq ≠ None ∨ avg_no2 aq ≠ None →
  ∃ req result trace',
    update_supabase w self region aq trace = (result, trace') ∧
    patches trace' = patches trace ++ [req] ∧
    region_code_filter req = "eq." +:+ region ∧
    json_body req !! "air_quality_pm25" = PNumber ∘ round2 <$> avg_pm25 aq ∧
    json_body req !! "air_quality_no2" = PNumber ∘ round2 <$> avg_no2 aq ∧
    json_body req !! "last_updated" = Some (PIsoformat (clock w trace)) ∧
    ∀ key, key ∉ ["air_quality_pm25"; "air_quality_no2"; "last_updated"] →
           json_body req !! key = None.
Proof.
  intros Hsome.
  assert (update_fields aq ≠ ∅) as Hne.
  { rewrite update_fields_empty. intros [? ?]. by destruct Hsome. }
  destruct (update_supabase_spec w self region aq trace Hne)
    as (req & Hbody & Hfilter & _ & Hrun).
  assert (∀ key, key ∉ ["air_quality_pm25"; "air_quality_no2"; "last_updated"] →
            json_body req !! key = None) as Hother.
  { intros key Hkey. rewrite Hbody, lookup_insert_ne, update_fields_lookup.
    - rewrite !decide_False; [done|intros ->; apply Hkey; repeat constructor..].
    - intros <-. apply Hkey. repeat constructor. }
  exists req.
  destruct (supabase w _ req) as [answer|e]; do 2 eexists;
    (split; [exact Hrun|]); rewrite !patches_cons, ?app_nil_r;
    (split_and!; [done|done| | | |done]); rewrite Hbody;
    by rewrite ?lookup_insert_eq, ?lookup_insert_ne, ?update_fields_lookup.
Qed.

(** A country whose fetches all raise is counted as failed, without any
    update, and the loop goes on. *)
Lemma process_country_fetch_raises c successful failed trace :
  fetch_raises w c →
  ∃ trace',
    process_country w self c (successful, failed) trace =
      (Ok (successful, S failed), Print (NoDataAvailable c) :: trace') ∧
    patches trace' = patches trace.
Proof.
  intros Hraises.
  destruct (process_country_spec w self c successful failed trace)
    as (aq & trace1 & Hfetch & Hpatches & ->).
  destruct (fetch_country_air_quality_default w c
              (Print (Processing c (COUNTRIES_get c c)) :: trace))
    as (req1 & tr1 & req2 & tr2 & trace1' & Hc1 & _ & Hc2 & _ & Hfetch' & _).
  rewrite Hfetch in Hfetch'. injection Hfetch' as -> _.
  destruct (Hraises tr1 req1 Hc1) as [e1 ->].
  destruct (Hraises tr2 req2 Hc2) as [e2 ->].
  simpl. by exists trace1.
Qed.

(** A country that succeeds is counted as successful. *)
Lemma process_country_succeeds c successful failed trace :
  country_succeeds w c →
  ∃ trace',
    process_country w self c (successful, failed) trace =
      (Ok (S successful, failed), trace').
Proof.
  intros [Hdata Hanswer].
  destruct (process_country_spec w self c successful failed trace)
    as (aq & trace1 & Hfetch & Hpatches & ->).
  destruct (fetch_country_air_quality_default w c
              (Print (Processing c (COUNTRIES_get c c)) :: trace))
    as (req1 & tr1 & req2 & tr2 & trace1' & Hc1 & Hp1 & Hc2 & Hp2 & Hfetch' & _).
  rewrite Hfetch in Hfetch'. injection Hfetch' as Haq _.
  assert (opt_truthy (avg_pm25 aq) || opt_truthy (avg_no2 aq) = true
          ∧ update_fields aq ≠ ∅) as [-> Hne].
  { rewrite update_fields_empty, Haq. simpl.
    destruct Hdata as [Hdata|Hdata].
    - destruct (Hdata tr1 req1 Hc1 Hp1) as (avg & -> & Havg). simpl.
      rewrite Havg. split; [done|]. by intros [? _].
    - destruct (Hdata tr2 req2 Hc2 Hp2) as (avg & -> & Havg). simpl.
      rewrite Havg, orb_true_r. split; [done|]. by intros [_ ?]. }
  destruct (update_supabase_spec w self c aq trace1 Hne)
    as (req & _ & Hfilter & _ & ->).
  destruct (Hanswer (UtcNow (clock w trace1) :: trace1) req Hfilter) as [answer ->].
  by eexists.
Qed.

Lemma for_countries_app before after counts trace :
  for_countries w self (before ++ after) counts trace =
    match for_countries w self before counts trace with
    | (Ok counts', trace') => for_countries w self after counts' trace'
    | (Raise e, trace') => (Raise e, trace')
    end.
Proof.
  revert counts trace. induction before as [|c before IH]; intros counts trace.
  - done.
  - cbn [for_countries app]. unfold mbind, M_bind.
    destruct (process_country w self c counts trace) as [[counts'|e] trace']; [|done].
    apply IH.
Qed.

Lemma for_countries_all_succeed countries successful failed trace :
  (∀ c, c ∈ countries → country_succeeds w c) →
  ∃ trace',
    for_countries w self countries (successful, failed) trace =
      (Ok ((successful + length countries)%nat, failed), trace').
Proof.
  revert successful trace.
  induction countries as [|c countries IH]; intros successful trace Hall;
    cbn [for_countries length].
  - exists trace. by rewrite Nat.add_0_r.
  - unfold mbind at 1. unfold M_bind at 1.
    destruct (process_country_succeeds c successful failed trace) as [trace1 ->];
      [apply Hall; set_solver|].
    destruct (IH (S successful) trace1) as [trace' ->];
      [intros c' Hc'; apply Hall; set_solver|].
    exists trace'. do 3 f_equal. lia.
Qed.

(** C2, as the code has it: when the datastore answers the partial update
    with a status outside 200/201/204, the failure is printed with the
    status and the body of the answer, and the country is counted as
    successful all the same: in its iteration, and in the summary of a run
    over that country. *)
Theorem rejected_update_counted_successful c status body :
  (has_data w c "pm25" ∨ has_data w c "no2") →
  (∀ trace req, region_code_filter req = "eq." +:+ c →
     ∃ answer, supabase w trace req = Ok answer ∧
               status_code answer = status ∧ text answer = body) →
  status ∉ [200; 201; 204] →
  (∀ successful failed trace, ∃ trace',
     process_country w self c (successful, failed) trace =
       (Ok (S successful, failed), Print (UpdateFailed c status body) :: trace')) ∧
  (∀ trace, ∃ trace',
     run_etl w self (Some [c]) trace =
       (Ok (), Print Rule :: Print (Complete 1 0) :: Print Rule
                 :: Print (UpdateFailed c status body) :: trace')).
Proof.
  intros Hdata Hanswer Hstatus.
  assert (∀ successful failed trace, ∃ trace',
     process_country w self c (successful, failed) trace =
       (Ok (S successful, failed), Print (UpdateFailed c status body) :: trace'))
    as Hiter.
  { intros successful failed trace.
    destruct (process_country_spec w self c successful failed trace)
      as (aq & trace1 & Hfetch & Hpatches & ->).
    destruct (fetch_country_air_quality_default w c
                (Print (Processing c (COUNTRIES_get c c)) :: trace))
      as (req1 & tr1 & req2 & tr2 & trace1' & Hc1 & Hp1 & Hc2 & Hp2 & Hfetch' & _).
    rewrite Hfetch in Hfetch'. injection Hfetch' as Haq _.
    assert (opt_truthy (avg_pm25 aq) || opt_truthy (avg_no2 aq) = true
            ∧ update_fields aq ≠ ∅) as [-> Hne].
    { rewrite update_fields_empty, Haq. simpl.
      destruct Hdata as [Hdata|Hdata].
      - destruct (Hdata tr1 req1 Hc1 Hp1) as (avg & -> & Havg). simpl.
        rewrite Havg. split; [done|]. by intros [? _].
      - destruct (Hdata tr2 req2 Hc2 Hp2) as (avg & -> & Havg). simpl.
        rewrite Havg, orb_true_r. split; [done|]. by intros [_ ?]. }
    destruct (update_supabase_spec w self c aq trace1 Hne)
      as (req & _ & Hfilter & _ & ->).
    destruct (Hanswer (UtcNow (clock w trace1) :: trace1) req Hfilter)
      as (answer & -> & <- & <-).
    rewrite bool_decide_eq_false_2 by done. by eexists. }
  split; [exact Hiter|].
  intros trace. rewrite run_etl_unfold. cbn [default from_option id for_countries].
  unfold mbind, M_bind, mret, M_ret.
  destruct (Hiter 0%nat 0%nat
    (Print Rule :: Print (Starting (clock w (Print Rule :: trace)))
       :: UtcNow (clock w (Print Rule :: trace)) :: Print Rule :: trace))
    as [trace' ->].
  by eexists.
Qed.

(** C4: in a run where every fetch of one country raises and every other
    country succeeds, no exception escapes [run_etl] and the summary counts
    one failed country and all the others as successful.  Whatever happens
    inside an iteration, it ends without an exception and with exactly one of
    the two counters incremented, so the loop goes on. *)
Theorem run_etl_isolates_failing_country before bad after trace :
  fetch_raises w bad →
  (∀ c, c ∈ before ++ after → country_succeeds w c) →
  (∃ trace',
     run_etl w self (Some (before ++ bad :: after)) trace =
       (Ok (), Print Rule
                 :: Print (Complete (length (before ++ bad :: after) - 1) 1)
                 :: trace')) ∧
  (∀ c successful failed trace0, ∃ counts trace',
     process_country w self c (successful, failed) trace0 = (Ok counts, trace') ∧
     (counts = (S successful, failed) ∨ counts = (successful, S failed))).
Proof.
  intros Hbad Hothers. split; [|intros; apply process_country_total].
  rewrite run_etl_unfold. cbn [default from_option id]. rewrite for_countries_app.
  destruct (for_countries_all_succeed before 0 0
    (Print Rule :: Print (Starting (clock w (Print Rule :: trace)))
       :: UtcNow (clock w (Print Rule :: trace)) :: Print Rule :: trace))
    as [trace1 ->]; [intros c Hc; apply Hothers; set_solver|].
  cbn [for_countries]. unfold mbind at 1. unfold M_bind at 1.
  destruct (process_country_fetch_raises bad (0 + length before) 0 trace1 Hbad)
    as (trace2 & -> & _).
  destruct (for_countries_all_succeed after (0 + length before) 1
              (Print (NoDataAvailable bad) :: trace2))
    as [trace3 ->]; [intros c Hc; apply Hothers; set_solver|].
  exists (Print Rule :: trace3). do 5 f_equal.
  rewrite length_app. simpl. lia.
Qed.


Lemma init_ok getenv etl :
  __init__ getenv = Ok etl ↔
    getenv "SUPABASE_URL" = Some (supabase_url etl) ∧ supabase_url etl ≠ "" ∧
    getenv "SUPABASE_SERVICE_KEY" = Some (supabase_key etl) ∧ supabase_key etl ≠ "".
Proof.
  unfold __init__, str_truthy. destruct etl as [u k]. simpl. split.
  - destruct (getenv "SUPABASE_URL") as [u'|]; [|done].
    destruct (getenv "SUPABASE_SERVICE_KEY") as [k'|]; [|done].
    do 2 case_bool_decide; simpl; try done. by intros [= -> ->].
  - intros (-> & Hu & -> & Hk). by rewrite !bool_decide_eq_false_2.
Qed.

(** C9: when a required secret is absent the process prints the fatal error
    and exits with status 1 without any request; once both secrets are set
    the batch always completes and the process exits with status 0, whatever
    the two counters of the summary are. *)
Theorem main_exit_status getenv :
  (getenv "SUPABASE_URL" = None ∨ getenv "SUPABASE_SERVICE_KEY" = None →
     main w getenv = (1, [Print (FatalError ValueError)]) ∧
     Forall (λ ev, is_network ev = false) (main w getenv).2) ∧
  (∀ etl, __init__ getenv = Ok etl →
     ∃ successful failed trace,
       main w getenv =
         (0, Print Rule :: Print (Complete successful failed) :: trace) ∧
       (successful + failed = length COUNTRIES)%nat).
Proof.
  split.
  - intros Habsent.
    assert (main w getenv = (1, [Print (FatalError ValueError)])) as ->.
    { unfold main, __init__.
      destruct Habsent as [-> | ->]; [done|by destruct (getenv "SUPABASE_URL")]. }
    split; [done|by repeat constructor].
  - intros etl Hetl. unfold main. rewrite Hetl.
    destruct (run_etl_total w etl None []) as (s & f & trace & -> & Hsum).
    exists s, f, trace. split; [done|]. by rewrite Hsum.
Qed.
End OrchestratorClaims.

(** * Binary64 floats satisfy the sign rules *)

Module Binary64Facts.
Import Binary64Model.










End Binary64Facts.

(** * The pipeline on binary64 floats *)

Section Binary64Claims.
Import Binary64Model Binary64Scenarios.
#[local] Existing Instance Binary64.

(** C1 (the code departs from the claim): every PM2.5 reading of the
    country is 0.0, so its average is 0.0 and not null; [run_etl] tests the
    averages for truth, takes 0.0 for "no data", issues no update and counts
    the country as failed. *)
Theorem zero_average_counted_failed :
  (fetch_country_air_quality zero_average_world "DEU" 7 []).1 =
    Ok {| avg_pm25 := Some 0%float; avg_no2 := None; measurement_count := 0 |} ∧
  (run_etl zero_average_world demo_etl (Some ["DEU"]) []).1 = Ok () ∧
  take 4 (run_etl zero_average_world demo_etl (Some ["DEU"]) []).2 =
    [Print Rule; Print (Complete 0 1); Print Rule; Print (NoDataAvailable "DEU")] ∧
  patches (run_etl zero_average_world demo_etl (Some ["DEU"]) []).2 = [].
Proof. split_and!; reflexivity. Qed.

(** The datastore answers 500: the failure is printed, and the summary
    reads one successful country and no failed one. *)
Lemma rejected_update_summary :
  (run_etl rejecting_world demo_etl (Some ["DEU"]) []).1 = Ok () ∧
  take 4 (run_etl rejecting_world demo_etl (Some ["DEU"]) []).2 =
    [Print Rule; Print (Complete 1 0); Print Rule;
     Print (UpdateFailed "DEU" 500 "Internal Server Error")] ∧
  summary (run_etl rejecting_world demo_etl (Some ["DEU"]) []).2 = Some (1, 0)%nat.
Proof. split_and!; reflexivity. Qed.

(** The rejecting datastore, one iteration for Germany. *)
Lemma rejected_update_counted_successful_witness :
  ∃ trace',
    process_country rejecting_world demo_etl "DEU" (0, 0)%nat [] =
      (Ok (1, 0)%nat,
       Print (UpdateFailed "DEU" 500 "Internal Server Error") :: trace').
Proof.
  apply (rejected_update_counted_successful rejecting_world demo_etl
           "DEU" 500 "Internal Server Error").
  - left. intros trace req Hc Hp. simpl. rewrite Hp. simpl.
    eexists. split; reflexivity.
  - intros trace req Hreq. eexists. split_and!; reflexivity.
  - intros Hin. by repeat (inversion_clear Hin as [|? ? ? Hin']; rename Hin' into Hin).
Defined.


(** Germany, Poland, France, with every fetch for Poland raising. *)
Lemma run_etl_isolates_failing_country_witness :
  ∃ trace',
    run_etl isolation_world demo_etl (Some ["DEU"; "POL"; "FRA"]) [] =
      (Ok (), Print Rule :: Print (Complete 2 1) :: trace').
Proof.
  apply (run_etl_isolates_failing_country isolation_world demo_etl ["DEU"] "POL" ["FRA"] []).
  - intros trace req Hc. simpl. rewrite Hc. simpl.
    destruct (decide (parameter req = "pm25")); by eexists.
  - intros c Hc. split.
    + left. intros trace req Hreq Hp. simpl. rewrite Hp, Hreq. simpl.
      inversion_clear Hc as [|? ? ? Hc']; [by eexists|].
      inversion_clear Hc' as [|? ? ? Hc'']; [by eexists|].
      inversion Hc''.
    + intros trace req _. by eexists.
Defined.

(** A PM2.5 average of 12.251953125 alone: the body holds 12.25 and the
    instant, and no NO2 key. *)
Lemma update_supabase_payload_witness :
  ∃ req result trace',
    update_supabase rejecting_world demo_etl "DEU" pm25_only [] = (result, trace') ∧
    patches trace' = [req] ∧
    region_code_filter req = "eq.DEU" ∧
    json_body req !! "air_quality_pm25" = Some (PNumber 12.25%float) ∧
    json_body req !! "air_quality_no2" = None ∧
    json_body req !! "last_updated" = Some (PIsoformat 1762198200000000).
Proof.
  destruct (update_supabase_payload rejecting_world demo_etl "DEU" pm25_only [])
    as (req & result & trace' & Hrun & Hpatches & Hfilter & Hpm25 & Hno2 & Hnow & _).
  - by left.
  - exists req, result, trace'.
    split_and!; [exact Hrun|exact Hpatches|exact Hfilter| |exact Hno2|exact Hnow].
    rewrite Hpm25. reflexivity.
Defined.

(** No secret at all, and both secrets set. *)
Lemma main_exit_status_witness :
  main isolation_world (λ _, None) = (1, [Print (FatalError ValueError)]) ∧
  ∃ successful failed trace,
    main isolation_world (λ _, Some "secret") =
      (0, Print Rule :: Print (Complete successful failed) :: trace) ∧
    (successful + failed = 12)%nat.
Proof.
  split.
  - apply (proj1 (main_exit_status isolation_world (λ _, None))). by left.
  - apply (proj2 (main_exit_status isolation_world (λ _, Some "secret"))
             {| supabase_url := "secret"; supabase_key := "secret" |}).
    reflexivity.
Defined.

(** A single reading. *)
Lemma calculate_average_null_iff_empty_witness :
  trimmed_values [5%float] ≠ [] ∧ ∃ avg, _calculate_average [5%float] = Ok (Some avg).
Proof.
  apply (proj1 (proj2 (calculate_average_null_iff_empty (F := Binary64) [5%float]))).
  discriminate.
Defined.

End Binary64Claims.


(** * Further properties of the Aggregator *)

Section AggregatorExtras.
Context {F : PyFloat}.
Implicit Types (x y : pyfloat) (values l : list pyfloat).

Lemma insert_sorted_last x l :
  (∀ z, z ∈ l → flt z x = true) → insert_sorted x l = l ++ [x].
Proof.
  induction l as [|y l IH]; intros Hall; simpl; [done|].
  rewrite (Hall y) by left. f_equal. apply IH. intros z Hz. apply Hall. by right.
Qed.

Lemma insert_sorted_before_last a l x :
  flt x a = false → insert_sorted a (l ++ [x]) = insert_sorted a l ++ [x].
Proof.
  intros Hxa. induction l as [|y l IH]; simpl; [by rewrite Hxa|].
  destruct (flt y a); [by rewrite IH|done].
Qed.

(** A value strictly above all the others is sorted last. *)
Lemma sorted_above before x after :
  above x (before ++ after) →
  sorted (before ++ x :: after) = sorted (before ++ after) ++ [x].
Proof.
  intros Habove. induction before as [|a before IH]; simpl.
  - apply insert_sorted_last. intros z Hz. rewrite sorted_perm in Hz.
    by apply Habove.
  - rewrite IH by (intros z Hz; apply Habove; by right).
    apply insert_sorted_before_last. apply Habove. by left.
Qed.

Lemma insert_sorted_after_first a x l :
  flt x a = true → insert_sorted a (x :: l) = x :: insert_sorted a l.
Proof. intros Hxa. simpl. by rewrite Hxa. Qed.

(** A value strictly below all the others is sorted first. *)
Lemma sorted_below before x after :
  below x (before ++ after) →
  sorted (before ++ x :: after) = x :: sorted (before ++ after).
Proof.
  intros Hbelow. induction before as [|a before IH]; simpl.
  - assert (∀ z, z ∈ sorted after → flt z x = false) as Hall.
    { intros z Hz. rewrite sorted_perm in Hz. by apply Hbelow. }
    destruct (sorted after) as [|y l]; simpl; [done|].
    by rewrite (Hall y) by left.
  - rewrite IH by (intros z Hz; apply Hbelow; by right).
    apply insert_sorted_after_first. apply Hbelow. by left.
Qed.

(** X1: with more than ten values, one reading strictly above all the others
    is among the dropped ones: the average is the one the other readings
    determine, whatever the size of the spike and wherever it stands. *)
Theorem calculate_average_ignores_spike before after x y :
  (10 ≤ length (before ++ after))%nat →
  above x (before ++ after) → above y (before ++ after) →
  _calculate_average (before ++ x :: after) = _calculate_average (before ++ y :: after) ∧
  _calculate_average (before ++ x :: after) =
    Ok (Some (arithmetic_mean
                (take (S (length (before ++ after))
                         - 2 * Z.to_nat (trim_count_of (S (length (before ++ after)))))
                   (drop (Z.to_nat (trim_count_of (S (length (before ++ after)))))
                      (sorted (before ++ after)))))).
Proof.
  intros Hn Hx Hy.
  assert (∀ z, above z (before ++ after) →
    _calculate_average (before ++ z :: after) =
      Ok (Some (arithmetic_mean
                  (take (S (length (before ++ after))
                           - 2 * Z.to_nat (trim_count_of (S (length (before ++ after)))))
                     (drop (Z.to_nat (trim_count_of (S (length (before ++ after)))))
                        (sorted (before ++ after))))))) as Hspike.
  { intros z Hz.
    assert (length (before ++ z :: after) = S (length (before ++ after))) as Hlen
      by (rewrite !length_app; simpl; lia).
    rewrite calculate_average_nonempty by (by destruct before).
    rewrite trimmed_values_long, Hlen by lia.
    destruct (trim_count_of_bounds (S (length (before ++ after))) ltac:(lia))
      as [H1 H2].
    rewrite sorted_above by done.
    rewrite drop_app_le by (rewrite length_sorted; lia).
    rewrite take_app_le by (rewrite length_drop, length_sorted; lia).
    done. }
  split; [by rewrite !Hspike|by apply Hspike].
Qed.

(** X2: the same for one reading strictly below all the others (a dropout). *)
Theorem calculate_average_ignores_dropout before after x y :
  (10 ≤ length (before ++ after))%nat →
  below x (before ++ after) → below y (before ++ after) →
  _calculate_average (before ++ x :: after) = _calculate_average (before ++ y :: after).
Proof.
  intros Hn Hx Hy.
  assert (∀ z, below z (before ++ after) →
    trimmed_values (before ++ z :: after) =
      take (S (length (before ++ after))
              - 2 * Z.to_nat (trim_count_of (S (length (before ++ after)))))
        (drop (Z.to_nat (trim_count_of (S (length (before ++ after)))) - 1)
           (sorted (before ++ after)))) as Hkept.
  { intros z Hz.
    assert (length (before ++ z :: after) = S (length (before ++ after))) as Hlen
      by (rewrite !length_app; simpl; lia).
    rewrite trimmed_values_long, Hlen by lia.
    destruct (trim_count_of_bounds (S (length (before ++ after))) ltac:(lia))
      as [H1 H2].
    rewrite sorted_below by done.
    destruct (Z.to_nat (trim_count_of (S (length (before ++ after)))))
      as [|t] eqn:Ht; [lia|].
    simpl. by rewrite Nat.sub_0_r. }
  rewrite !calculate_average_nonempty by (by destruct before).
  by rewrite !Hkept.
Qed.

(** Two sorted lists with the same elements are the same list, when no two
    distinct elements compare as equal. *)
Lemma ascending_unique l1 l2 :
  StronglySorted fle l1 → StronglySorted fle l2 → l1 ≡ₚ l2 →
  distinct_when_ordered l1 → l1 = l2.
Proof.
  intros Hs1. revert l2.
  induction Hs1 as [|a l1 Hs1 IH Ha]; intros l2 Hs2 Hperm Hdistinct.
  - by apply Permutation_nil_l in Hperm.
  - destruct Hs2 as [|b l2 Hs2 Hb].
    + by apply Permutation_nil_r in Hperm.
    + assert (a = b) as <-.
      { assert (a ∈ b :: l2) as Hab by (rewrite <-Hperm; left).
        assert (b ∈ a :: l1) as Hba by (rewrite Hperm; left).
        apply elem_of_cons in Hab as [->|Hab]; [done|].
        apply elem_of_cons in Hba as [->|Hba]; [done|].
        apply Hdistinct; [left|by right| |].
        - by eapply Forall_forall in Ha.
        - by eapply Forall_forall in Hb. }
      f_equal. apply IH; [done|by apply Permutation_cons_inv in Hperm|].
      intros x y Hx Hy. apply Hdistinct; by right.
Qed.

Lemma elem_of_cons_skip (a x y : pyfloat) l : a ∈ x :: l → a ∈ x :: y :: l.
Proof. intros [->|Ha]%elem_of_cons; [left|by do 2 right]. Qed.

Lemma insert_sorted_ascending_on x l :
  ordered (x :: l) → StronglySorted fle l → StronglySorted fle (insert_sorted x l).
Proof.
  intros [Hasym Htrans] Hl.
  induction Hl as [|y l Hl IH Hy]; simpl; [by repeat constructor|].
  assert (x ∈ x :: y :: l) as Hx by left.
  assert (y ∈ x :: y :: l) as Hy' by (right; left).
  destruct (flt y x) eqn:Hyx.
  - constructor.
    + apply IH.
      * intros a b Ha Hb. by apply Hasym; apply elem_of_cons_skip.
      * intros a b d Ha Hb Hd. by apply Htrans; apply elem_of_cons_skip.
    + apply Forall_forall. intros z Hz. rewrite insert_sorted_perm in Hz.
      apply elem_of_cons in Hz as [->|Hz].
      * by apply Hasym.
      * by eapply Forall_forall in Hy.
  - constructor; [by constructor|].
    constructor; [done|]. apply Forall_forall. intros z Hz.
    apply (Htrans x y z); [done|done|by do 2 right|done|].
    by eapply Forall_forall in Hy.
Qed.

(** [sorted] returns an ascending list as soon as [<] orders its input. *)
Lemma sorted_ascending_on values :
  ordered values → StronglySorted fle (sorted values).
Proof.
  induction values as [|x values IH]; intros Hordered; simpl; [constructor|].
  apply insert_sorted_ascending_on.
  - destruct Hordered as [Hasym Htrans]. split.
    + intros a b Ha Hb. rewrite (sorted_perm values) in Ha, Hb. by apply Hasym.
    + intros a b d Ha Hb Hd. rewrite (sorted_perm values) in Ha, Hb, Hd.
      by apply Htrans.
  - apply IH. destruct Hordered as [Hasym Htrans]. split.
    + intros a b Ha Hb. apply Hasym; by right.
    + intros a b d Ha Hb Hd. apply Htrans; by right.
Qed.

(** X3: the order in which the measurements arrive does not matter: the values
    are sorted before they are trimmed and summed, so two lists with the same
    values have the same average, rounding included.  It takes values that
    [<] orders (no NaN) and of which no two distinct ones compare as equal. *)
Theorem calculate_average_order_independent values values' :
  values ≡ₚ values' → ordered values → distinct_when_ordered values →
  _calculate_average values = _calculate_average values'.
Proof.
  intros Hperm Hordered Hdistinct.
  assert (ordered values') as Hordered'.
  { destruct Hordered as [Hasym Htrans]. split.
    - intros a b Ha Hb. rewrite <-Hperm in Ha, Hb. by apply Hasym.
    - intros a b d Ha Hb Hd. rewrite <-Hperm in Ha, Hb, Hd. by apply Htrans. }
  assert (sorted values = sorted values') as Hsorted.
  { apply ascending_unique; [by apply sorted_ascending_on..| |].
    - by rewrite !sorted_perm.
    - intros x y Hx Hy. rewrite sorted_perm in Hx, Hy. by apply Hdistinct. }
  unfold _calculate_average, trimmed_values. rewrite Hsorted.
  assert (is_empty values = is_empty values') as ->; [|done].
  destruct values, values'; [done| | |done].
  - by apply Permutation_nil_cons in Hperm.
  - symmetry in Hperm. by apply Permutation_nil_cons in Hperm.
Qed.

(** X4: how many values are kept: all of at most ten; above ten, all but
    [2 * max(1, n // 20)], which leaves at least nine values and, from twenty
    values on, at least nine in ten. *)
Theorem trimmed_values_kept_count values :
  ((length values ≤ 10)%nat → length (trimmed_values values) = length values) ∧
  ((10 < length values)%nat →
     Z.of_nat (length (trimmed_values values)) =
       Z.of_nat (length values) - 2 * Z.max 1 (Z.of_nat (length values) `div` 20) ∧
     (9 ≤ length (trimmed_values values))%nat ∧
     ((20 ≤ length values)%nat →
        (9 * length values ≤ 10 * length (trimmed_values values))%nat)).
Proof.
  split; intros Hn; rewrite length_trimmed_values.
  - by rewrite bool_decide_eq_false_2 by lia.
  - rewrite bool_decide_eq_true_2 by lia.
    destruct (trim_count_of_bounds _ Hn) as [H1 H2]. unfold trim_count_of in *.
    pose proof (Z.div_mod (Z.of_nat (length values)) 20 ltac:(done)) as Hdiv.
    pose proof (Z.mod_pos_bound (Z.of_nat (length values)) 20 ltac:(done)) as Hmod.
    split_and!; lia.
Qed.
End AggregatorExtras.

(** * The trimmed mean on exact rationals *)

Module ExactBounds.
Import ExactModel.

Lemma inject_Z_succ (n : nat) :
  (inject_Z (Z.of_nat (S n)) == inject_Z (Z.of_nat n) + 1)%Q.
Proof. by rewrite Nat2Z.inj_succ, <-Z.add_1_r, inject_Z_plus. Qed.

Lemma sum_lower_bound (l : list Q) (lo a : Q) :
  (∀ x, x ∈ l → (lo <= x)%Q) →
  (a + inject_Z (Z.of_nat (length l)) * lo <= foldl (@fadd QFloat) a l)%Q.
Proof.
  revert a. induction l as [|x l IH]; intros a Hall.
  - simpl. change (inject_Z (Z.of_nat 0)) with 0%Q. lra.
  - cbn [foldl length]. rewrite inject_Z_succ.
    assert (lo <= x)%Q as Hx by (apply Hall; left).
    specialize (IH (@fadd QFloat a x) (λ z Hz, Hall z (list_elem_of_further _ _ _ Hz))).
    assert (@fadd QFloat a x == a + x)%Q as Hacc by apply Qred_correct.
    set (acc := @fadd QFloat a x) in *. lra.
Qed.

Lemma sum_upper_bound (l : list Q) (hi a : Q) :
  (∀ x, x ∈ l → (x <= hi)%Q) →
  (foldl (@fadd QFloat) a l <= a + inject_Z (Z.of_nat (length l)) * hi)%Q.
Proof.
  revert a. induction l as [|x l IH]; intros a Hall.
  - simpl. change (inject_Z (Z.of_nat 0)) with 0%Q. lra.
  - cbn [foldl length]. rewrite inject_Z_succ.
    assert (x <= hi)%Q as Hx by (apply Hall; left).
    specialize (IH (@fadd QFloat a x) (λ z Hz, Hall z (list_elem_of_further _ _ _ Hz))).
    assert (@fadd QFloat a x == a + x)%Q as Hacc by apply Qred_correct.
    set (acc := @fadd QFloat a x) in *. lra.
Qed.

Lemma arithmetic_mean_between (l : list Q) (lo hi : Q) :
  l ≠ [] → (∀ x, x ∈ l → (lo <= x <= hi)%Q) →
  (lo <= @arithmetic_mean QFloat l <= hi)%Q.
Proof.
  intros Hne Hall.
  assert (0 < inject_Z (Z.of_nat (length l)))%Q as Hpos.
  { change 0%Q with (inject_Z 0). rewrite <-Zlt_Qlt. destruct l; [done|simpl; lia]. }
  pose proof (sum_lower_bound l lo 0 (λ x Hx, proj1 (Hall x Hx))) as Hlo.
  pose proof (sum_upper_bound l hi 0 (λ x Hx, proj2 (Hall x Hx))) as Hhi.
  set (total := foldl (@fadd QFloat) 0%Q l) in *.
  change (lo <= Qred (total / inject_Z (Z.of_nat (length l))) <= hi)%Q.
  rewrite Qred_correct. split.
  - apply Qle_shift_div_l; [done|]. lra.
  - apply Qle_shift_div_r; [done|]. lra.
Qed.

(** X5: the average of a non-empty list lies within any bounds its values lie
    within: trimming and averaging never leave the range of the readings. *)
Theorem calculate_average_between (values : list Q) (lo hi : Q) :
  values ≠ [] → (∀ x, x ∈ values → (lo <= x <= hi)%Q) →
  ∃ avg, @_calculate_average QFloat values = Ok (Some avg) ∧ (lo <= avg <= hi)%Q.
Proof.
  intros Hne Hall. rewrite calculate_average_nonempty by done.
  eexists. split; [done|]. apply arithmetic_mean_between.
  - pose proof (trimmed_values_nonempty (F := QFloat) values Hne) as Hlen.
    intros E. rewrite E in Hlen. simpl in Hlen. lia.
  - intros x Hx. apply Hall. by apply (trimmed_values_elem (F := QFloat)).
Qed.

Lemma calculate_average_between_witness :
  ∃ avg, @_calculate_average QFloat [12.5; 9; 14.25]%Q = Ok (Some avg) ∧
         (9 <= avg <= 14.25)%Q.
Proof.
  apply (calculate_average_between [12.5; 9; 14.25]%Q 9 14.25).
  - discriminate.
  - intros x Hx.
    repeat (apply elem_of_cons in Hx as [->|Hx]; [split; discriminate|]).
    by apply elem_of_nil in Hx.
Defined.
End ExactBounds.

(** * Further properties of the Fetcher *)

Section FetcherExtras.
Context {F : PyFloat} (w : world).

Lemma numeric_values_cons r rs :
  numeric_values (r :: rs) =
    match value r with
    | Some (JNumber x) => x :: numeric_values rs
    | _ => numeric_values rs
    end.
Proof. unfold numeric_values. simpl. by destruct (value r) as [[|x|]|]. Qed.

Lemma collect_values_numeric rs measurements :
  Forall (λ r, value r ≠ Some JNonNumeric) rs →
  collect_values rs measurements = Ok (measurements ++ numeric_values rs).
Proof.
  intros Hall. revert measurements.
  induction Hall as [|r rs Hr _ IH]; intros measurements; cbn [collect_values].
  - by rewrite app_nil_r.
  - rewrite numeric_values_cons.
    destruct (value r) as [[|x|]|]; simpl; rewrite ?IH; try done.
    by rewrite <-app_assoc.
Qed.

Lemma collect_values_non_numeric rs measurements :
  Exists (λ r, value r = Some JNonNumeric) rs →
  collect_values rs measurements = Raise ValueError.
Proof.
  intros Hex. revert measurements.
  induction Hex as [r rs Hr|r rs _ IH]; intros measurements; simpl.
  - by rewrite Hr.
  - destruct (value r) as [[|x|]|]; simpl; by rewrite ?IH.
Qed.

(** X6: records whose [value] is missing or null are skipped; the numbers that
    remain are returned in the order of the answer.  A body without a
    [results] key gives no measurement at all. *)
Theorem measurements_of_numeric rs :
  Forall (λ r, value r ≠ Some JNonNumeric) rs →
  measurements_of {| results := Some rs |} = Ok (numeric_values rs) ∧
  measurements_of {| results := None |} = Ok [] ∧
  (length (numeric_values rs) ≤ length rs)%nat.
Proof.
  intros Hall. split_and!.
  - unfold measurements_of. simpl. by rewrite collect_values_numeric.
  - done.
  - clear Hall. induction rs as [|r rs IH]; [done|].
    rewrite numeric_values_cons. destruct (value r) as [[|x|]|]; simpl; lia.
Qed.

(** X7: one value that [float()] rejects makes the whole fetch raise: the valid
    values of the same answer are lost, and the parameter gets no average. *)
Theorem non_numeric_value_fails_fetch (answer : response) rs :
  json answer = Ok {| results := Some rs |} →
  Exists (λ r, value r = Some JNonNumeric) rs →
  (∃ e, decoded (Ok answer) = Raise e) ∧ average_of (decoded (Ok answer)) = None.
Proof.
  intros Hjson Hex.
  assert (∃ e, decoded (Ok answer) = Raise e) as [e He].
  { unfold decoded. simpl. destruct (raise_for_status answer); simpl; [|by eexists].
    rewrite Hjson. simpl. unfold measurements_of. simpl.
    rewrite collect_values_non_numeric by done. by eexists. }
  split; [by exists e|by rewrite He].
Qed.

End FetcherExtras.

(** * Further properties of the Updater and the Orchestrator *)

Section OrchestratorExtras.
Context {F : PyFloat} (w : world) (self : OpenAQETL).

Lemma opt_truthy_some (x : option pyfloat) : opt_truthy x = true → x ≠ None.
Proof. by destruct x. Qed.

Lemma truthy_update_fields aq :
  opt_truthy (avg_pm25 aq) || opt_truthy (avg_no2 aq) = true → update_fields aq ≠ ∅.
Proof.
  rewrite update_fields_empty. intros Htruthy [Hpm25 Hno2].
  by rewrite Hpm25, Hno2 in Htruthy.
Qed.

(** What [update_supabase] sends: no GET ever; one PATCH for the region when
    there is a field to write, none otherwise. *)
Lemma update_supabase_requests region aq trace :
  ∃ result trace',
    update_supabase w self region aq trace = (result, trace') ∧
    gets trace' = gets trace ∧
    if decide (update_fields aq = ∅)
    then result = Ok () ∧ patches trace' = patches trace
    else ∃ req,
      patches trace' = patches trace ++ [req] ∧
      region_code_filter req = "eq." +:+ region ∧
      json_body req = <["last_updated" := PIsoformat (clock w trace)]> (update_fields aq) ∧
      match result with
      | Ok _ => ∃ answer, supabase w (UtcNow (clock w trace) :: trace) req = Ok answer
      | Raise e => supabase w (UtcNow (clock w trace) :: trace) req = Raise e
      end.
Proof.
  case_decide as Hfields.
  - rewrite update_supabase_skip by done. do 2 eexists.
    split_and!; [done| |done|]; by rewrite ?gets_cons, ?patches_cons, app_nil_r.
  - destruct (update_supabase_spec w self region aq trace Hfields)
      as (req & Hbody & Hfilter & _ & ->).
    destruct (supabase w _ req) as [answer|e] eqn:Hanswer; do 2 eexists;
      (split_and!; [done| |exists req; split_and!; [|done|done|]]);
      rewrite ?gets_cons, ?patches_cons, ?app_nil_r; try done.
    by exists answer.
Qed.

(** The requests of one iteration of the loop. *)
Lemma process_country_sent c successful failed trace :
  ∃ aq trace1 counts trace',
    fetch_country_air_quality w c 7
      (Print (Processing c (COUNTRIES_get c c)) :: trace) = (Ok aq, trace1) ∧
    process_country w self c (successful, failed) trace = (Ok counts, trace') ∧
    length (gets trace') = (length (gets trace) + 2)%nat ∧
    if opt_truthy (avg_pm25 aq) || opt_truthy (avg_no2 aq)
    then ∃ req,
      patches trace' = patches trace ++ [req] ∧
      region_code_filter req = "eq." +:+ c ∧
      json_body req = <["last_updated" := PIsoformat (clock w trace1)]> (update_fields aq) ∧
      (counts = (S successful, failed) ∨ counts = (successful, S failed))
    else patches trace' = patches trace ∧ counts = (successful, S failed).
Proof.
  destruct (process_country_spec w self c successful failed trace)
    as (aq & trace1 & Hfetch & Hpatches & ->).
  destruct (fetch_country_air_quality_sends w c 7
              (Print (Processing c (COUNTRIES_get c c)) :: trace)
              (window_start_default _))
    as (aq' & trace1' & _ & _ & Hfetch' & Hgets & _).
  rewrite Hfetch in Hfetch'. injection Hfetch' as _ <-.
  rewrite gets_cons, app_nil_r in Hgets.
  exists aq, trace1.
  destruct (opt_truthy (avg_pm25 aq) || opt_truthy (avg_no2 aq)) eqn:Htruthy.
  - destruct (update_supabase_requests c aq trace1)
      as (result & trace2 & -> & Hgets2 & Hsent).
    rewrite decide_False in Hsent by by apply truthy_update_fields.
    destruct Hsent as (req & Hpatches2 & Hfilter & Hbody & _).
    destruct result as [[]|e]; do 2 eexists;
      (split; [done|]); (split; [done|]);
      (split; [by rewrite ?gets_cons, ?app_nil_r, Hgets2, Hgets, length_app|]);
      exists req; rewrite ?patches_cons, ?app_nil_r, Hpatches2, Hpatches; auto.
  - do 2 eexists. split; [done|]. split; [done|]. split.
    + by rewrite gets_cons, app_nil_r, Hgets, length_app.
    + by rewrite patches_cons, app_nil_r.
Qed.

(** X9: one iteration of the loop, by its requests: two GETs in every case, and
    one PATCH, for that country and carrying the fetched averages, exactly
    when one of the averages is truthy.  A country whose averages are null
    or zero gets no PATCH and is counted as failed. *)
Theorem process_country_requests c successful failed trace :
  ∃ aq trace1 counts trace',
    fetch_country_air_quality w c 7
      (Print (Processing c (COUNTRIES_get c c)) :: trace) = (Ok aq, trace1) ∧
    process_country w self c (successful, failed) trace = (Ok counts, trace') ∧
    length (gets trace') = (length (gets trace) + 2)%nat ∧
    if opt_truthy (avg_pm25 aq) || opt_truthy (avg_no2 aq)
    then ∃ req,
      patches trace' = patches trace ++ [req] ∧
      region_code_filter req = "eq." +:+ c ∧
      json_body req = <["last_updated" := PIsoformat (clock w trace1)]> (update_fields aq) ∧
      (counts = (S successful, failed) ∨ counts = (successful, S failed))
    else patches trace' = patches trace ∧ counts = (successful, S failed).
Proof. apply process_country_sent. Qed.

(** X10: A PATCH that raises (a time-out, a refused connection) is caught at the
    country boundary: the request went out, the error is printed with the
    country, and the country is counted as failed. *)
Theorem patch_exception_counted_failed c e successful failed trace :
  (has_data w c "pm25" ∨ has_data w c "no2") →
  (∀ trace req, region_code_filter req = "eq." +:+ c → supabase w trace req = Raise e) →
  ∃ req trace',
    process_country w self c (successful, failed) trace =
      (Ok (successful, S failed),
       Print (ProcessingFailed c e) :: HttpPatch req :: trace') ∧
    region_code_filter req = "eq." +:+ c.
Proof.
  intros Hdata Hraise.
  destruct (process_country_spec w self c successful failed trace)
    as (aq & trace1 & Hfetch & Hpatches & ->).
  destruct (fetch_country_air_quality_default w c
              (Print (Processing c (COUNTRIES_get c c)) :: trace))
    as (req1 & tr1 & req2 & tr2 & trace1' & Hc1 & Hp1 & Hc2 & Hp2 & Hfetch' & _).
  rewrite Hfetch in Hfetch'. injection Hfetch' as Haq _.
  assert (opt_truthy (avg_pm25 aq) || opt_truthy (avg_no2 aq) = true) as Htruthy.
  { rewrite Haq. simpl. destruct Hdata as [Hdata|Hdata].
    - destruct (Hdata tr1 req1 Hc1 Hp1) as (avg & -> & Havg). simpl. by rewrite Havg.
    - destruct (Hdata tr2 req2 Hc2 Hp2) as (avg & -> & Havg). simpl.
      by rewrite Havg, orb_true_r. }
  rewrite Htruthy.
  destruct (update_supabase_spec w self c aq trace1 (truthy_update_fields aq Htruthy))
    as (req & _ & Hfilter & _ & ->).
  rewrite (Hraise _ req Hfilter). by exists req, (UtcNow (clock w trace1) :: trace1).
Qed.
End OrchestratorExtras.

(** * Properties of a whole run *)

Section RunExtras.
Context {F : PyFloat} (w : world) (self : OpenAQETL).

Lemma process_country_accounting c successful failed trace :
  ∃ successful' failed' trace',
    process_country w self c (successful, failed) trace =
      (Ok (successful', failed'), trace') ∧
    (successful' + failed' = successful + failed + 1)%nat ∧
    (successful ≤ successful')%nat ∧
    length (gets trace') = (length (gets trace) + 2)%nat ∧
    (length (patches trace) + (successful' - successful)
       ≤ length (patches trace'))%nat ∧
    (length (patches trace') ≤ length (patches trace) + 1)%nat.
Proof.
  destruct (process_country_sent w self c successful failed trace)
    as (aq & trace1 & counts & trace' & _ & -> & Hgets & Hsent).
  destruct (opt_truthy (avg_pm25 aq) || opt_truthy (avg_no2 aq)).
  - destruct Hsent as (req & Hpatches & _ & _ & [-> | ->]);
      do 3 eexists; (split; [done|]); rewrite Hpatches, length_app; simpl; lia.
  - destruct Hsent as [Hpatches ->]. do 3 eexists. split; [done|].
    rewrite Hpatches. lia.
Qed.

Lemma for_countries_accounting countries successful failed trace :
  ∃ successful' failed' trace',
    for_countries w self countries (successful, failed) trace =
      (Ok (successful', failed'), trace') ∧
    (successful' + failed' = successful + failed + length countries)%nat ∧
    (successful ≤ successful')%nat ∧
    length (gets trace') = (length (gets trace) + 2 * length countries)%nat ∧
    (length (patches trace) + (successful' - successful)
       ≤ length (patches trace'))%nat ∧
    (length (patches trace') ≤ length (patches trace) + length countries)%nat.
Proof.
  revert successful failed trace.
  induction countries as [|c countries IH]; intros successful failed trace;
    cbn [for_countries length].
  - exists successful, failed, trace. split; [done|]. lia.
  - unfold mbind at 1. unfold M_bind at 1.
    destruct (process_country_accounting c successful failed trace)
      as (s1 & f1 & trace1 & -> & Hsum1 & Hle1 & Hgets1 & Hlow1 & Hhigh1).
    destruct (IH s1 f1 trace1)
      as (s2 & f2 & trace2 & -> & Hsum2 & Hle2 & Hgets2 & Hlow2 & Hhigh2).
    exists s2, f2, trace2. split; [done|]. lia.
Qed.

(** X11: every run completes: no exception escapes [run_etl], whatever the two
    APIs do.  Each country of the list is attempted and counted once, so the
    two counters of the summary add up to the number of countries (twelve by
    default); the run sends two GETs per country, at most one PATCH per
    country, and at least one PATCH per country it counts as successful. *)
Theorem run_etl_accounting countries trace :
  ∃ successful failed trace',
    run_etl w self countries trace = (Ok (), trace') ∧
    summary trace' = Some (successful, failed) ∧
    (successful + failed = length (default (COUNTRIES.*1) countries))%nat ∧
    (countries = None → successful + failed = 12)%nat ∧
    length (gets trace') =
      (length (gets trace) + 2 * length (default (COUNTRIES.*1) countries))%nat ∧
    (length (patches trace) + successful ≤ length (patches trace'))%nat ∧
    (length (patches trace')
       ≤ length (patches trace) + length (default (COUNTRIES.*1) countries))%nat.
Proof.
  rewrite run_etl_unfold. cbv zeta.
  destruct (for_countries_accounting (default (COUNTRIES.*1) countries) 0 0
              (Print Rule :: Print (Starting (clock w (Print Rule :: trace)))
                 :: UtcNow (clock w (Print Rule :: trace)) :: Print Rule :: trace))
    as (s & f & trace' & -> & Hsum & _ & Hgets & Hlow & Hhigh).
  rewrite !gets_cons, !patches_cons, !app_nil_r in *.
  exists s, f. eexists. split; [done|].
  rewrite !gets_cons, !patches_cons, !app_nil_r.
  split_and!; [done|lia| |lia|lia|lia].
  intros ->. simpl in Hsum. lia.
Qed.

Lemma for_countries_all_fail countries successful failed trace :
  (∀ c, c ∈ countries → fetch_raises w c) →
  ∃ trace',
    for_countries w self countries (successful, failed) trace =
      (Ok (successful, (failed + length countries)%nat), trace') ∧
    patches trace' = patches trace.
Proof.
  revert failed trace.
  induction countries as [|c countries IH]; intros failed trace Hall;
    cbn [for_countries length].
  - exists trace. by rewrite Nat.add_0_r.
  - unfold mbind at 1. unfold M_bind at 1.
    destruct (process_country_fetch_raises w self c successful failed trace)
      as (trace1 & -> & Hpatches1); [apply Hall; left|].
    destruct (IH (S failed) (Print (NoDataAvailable c) :: trace1))
      as (trace2 & -> & Hpatches2); [intros c' Hc'; apply Hall; by right|].
    exists trace2. split; [do 3 f_equal; lia|].
    by rewrite Hpatches2, patches_cons, app_nil_r.
Qed.

(** X12: when the measurements API is down for every country of the run (every
    fetch raises), the run still completes, counts every country as failed
    and sends nothing to the datastore. *)
Theorem run_etl_outage countries trace :
  (∀ c, c ∈ default (COUNTRIES.*1) countries → fetch_raises w c) →
  ∃ trace',
    run_etl w self countries trace = (Ok (), trace') ∧
    summary trace' = Some (0, length (default (COUNTRIES.*1) countries))%nat ∧
    patches trace' = patches trace.
Proof.
  intros Hdown. rewrite run_etl_unfold. cbv zeta.
  destruct (for_countries_all_fail (default (COUNTRIES.*1) countries) 0 0
              (Print Rule :: Print (Starting (clock w (Print Rule :: trace)))
                 :: UtcNow (clock w (Print Rule :: trace)) :: Print Rule :: trace) Hdown)
    as (trace' & -> & Hpatches).
  eexists. split; [done|]. split; [done|].
  by rewrite !patches_cons, !app_nil_r, Hpatches, !patches_cons, !app_nil_r.
Qed.

(** X13: the exit status of the process is 0 or 1, and it is 0 exactly when both
    secrets are set to non-empty strings: an empty secret is refused like a
    missing one.  A process that exits with 1 has printed the fatal error and
    done nothing else: no request, no reading of the clock. *)
Theorem main_exit_status_iff getenv :
  ((main w getenv).1 = 0 ↔
     ∃ url key, getenv "SUPABASE_URL" = Some url ∧ url ≠ "" ∧
                getenv "SUPABASE_SERVICE_KEY" = Some key ∧ key ≠ "") ∧
  ((main w getenv).1 = 0 ∨ (main w getenv).1 = 1) ∧
  ((main w getenv).1 = 1 → (main w getenv).2 = [Print (FatalError ValueError)]).
Proof.
  destruct (__init__ getenv) as [etl|e] eqn:Hinit.
  - assert ((main w getenv).1 = 0) as Hexit.
    { unfold main. rewrite Hinit.
      by destruct (run_etl_total w etl None []) as (s & f & trace & -> & _). }
    apply init_ok in Hinit as (Hurl & Hurl' & Hkey & Hkey').
    split_and!.
    + split; [|done]. intros _. by exists (supabase_url etl), (supabase_key etl).
    + by left.
    + intros Hone. rewrite Hexit in Hone. done.
  - assert (main w getenv = (1, [Print (FatalError ValueError)])) as ->.
    { unfold main. rewrite Hinit. unfold __init__ in Hinit.
      destruct (getenv "SUPABASE_URL"), (getenv "SUPABASE_SERVICE_KEY");
        try by injection Hinit as <-.
      destruct (_ || _); [by injection Hinit as <-|done]. }
    split_and!; [|by right|done].
    split; [done|]. intros (url & key & Hurl & Hurl' & Hkey & Hkey').
    assert (__init__ getenv = Ok {| supabase_url := url; supabase_key := key |})
      as Hok by by apply init_ok.
    by rewrite Hok in Hinit.
Qed.
End RunExtras.

(** * The further properties on concrete inputs *)

Section Binary64Extras.
Import Binary64Model Binary64Scenarios Binary64Samples.
#[local] Existing Instance Binary64.

(** Among ten ordinary readings, a spike of 9999 or of a million. *)
Lemma calculate_average_ignores_spike_witness :
  _calculate_average (readings_before ++ 9999%float :: readings_after) =
    _calculate_average (readings_before ++ 1000000%float :: readings_after).
Proof.
  apply (calculate_average_ignores_spike (F := Binary64)
           readings_before readings_after 9999%float 1000000%float).
  - simpl. lia.
  - intros z Hz. each_reading Hz.
  - intros z Hz. each_reading Hz.
Defined.

(** Among ten ordinary readings, a dropout of -999 or of -1. *)
Lemma calculate_average_ignores_dropout_witness :
  _calculate_average (readings_before ++ (-999)%float :: readings_after) =
    _calculate_average (readings_before ++ (-1)%float :: readings_after).
Proof.
  apply (calculate_average_ignores_dropout (F := Binary64)
           readings_before readings_after (-999)%float (-1)%float).
  - simpl. lia.
  - intros z Hz. each_reading Hz.
  - intros z Hz. each_reading Hz.
Defined.

(** A null and a missing value are skipped, the two numbers are kept. *)
Lemma measurements_of_numeric_witness :
  measurements_of {| results := Some mixed_results |} = Ok [12.5%float; 9.75%float].
Proof.
  apply (measurements_of_numeric (F := Binary64) mixed_results).
  by repeat constructor.
Defined.

(** A 200 answer with one value that is no number. *)
Lemma non_numeric_value_fails_fetch_witness :
  average_of (decoded (Ok {| status_code := 200; text := "";
                             json := Ok {| results := Some poisoned_results |} |})) = None.
Proof.
  apply (non_numeric_value_fails_fetch (F := Binary64)
           {| status_code := 200; text := "";
              json := Ok {| results := Some poisoned_results |} |} poisoned_results).
  - reflexivity.
  - right. by left.
Defined.

(** The datastore cannot be reached while Germany has data. *)
Lemma patch_exception_counted_failed_witness :
  ∃ req trace',
    process_country unreachable_store_world demo_etl "DEU" (0, 0)%nat [] =
      (Ok (0, 1)%nat,
       Print (ProcessingFailed "DEU" RequestException) :: HttpPatch req :: trace') ∧
    region_code_filter req = "eq.DEU".
Proof.
  apply (patch_exception_counted_failed (F := Binary64) unreachable_store_world
           demo_etl "DEU" RequestException 0%nat 0%nat []).
  - left. intros trace req Hc Hp. simpl. rewrite Hp. simpl.
    eexists. split; reflexivity.
  - intros trace req _. reflexivity.
Defined.

(** The measurements API is down during a run over Germany and France. *)
Lemma run_etl_outage_witness :
  ∃ trace',
    run_etl outage_world demo_etl (Some ["DEU"; "FRA"]) [] = (Ok (), trace') ∧
    summary trace' = Some (0, 2)%nat ∧
    patches trace' = [].
Proof.
  apply (run_etl_outage (F := Binary64) outage_world demo_etl (Some ["DEU"; "FRA"]) []).
  intros c _ trace req _. simpl.
  destruct (decide (parameter req = "pm25")); by eexists.
Defined.

(** Both secrets set, but the key is the empty string. *)
Lemma main_exit_status_iff_witness :
  (main outage_world
     (λ name, if decide (name = "SUPABASE_URL") then Some "https://example.supabase.co"
              else Some "")).1 ≠ 0.
Proof.
  intros Hzero.
  apply (proj1 (main_exit_status_iff (F := Binary64) outage_world _)) in Hzero
    as (url & key & _ & _ & Hkey & Hkey').
  simpl in Hkey. by injection Hkey as <-.
Defined.
(** A reading of 2^53 and two readings of 1, in two orders: the sums as
    given differ, the averages do not. *)
Lemma calculate_average_order_independent_witness :
  _calculate_average large_first = _calculate_average large_last ∧
  PrimFloat.eqb (py_sum large_first) (py_sum large_last) = false.
Proof.
  split; [|reflexivity].
  apply (calculate_average_order_independent (F := Binary64) large_first large_last).
  - etrans; [apply Permutation_swap|]. constructor. apply Permutation_swap.
  - split.
    + intros x y Hx Hy. each_element Hx; each_element Hy; by vm_compute.
    + intros x y z Hx Hy Hz.
      each_element Hx; each_element Hy; each_element Hz; by vm_compute.
  - intros x y Hx Hy. each_element Hx; each_element Hy; by vm_compute.
Defined.
End Binary64Extras.

